(** * The training-pipeline workflow descriptor

    A verification development for [src/airflow/dags/training_pipeline.py].

    The file is looked at on two levels.

    - [Source]: the file as it stands, line by line.  Every line is blank or
      a [#] comment, so the Python tokenizer hands no statement to the
      interpreter.
    - [Descriptor]: the workflow that the commented-out text declares, with
      the comment markers taken off: the module-level imports, the call of
      [load_dotenv], the [DAG] context, the two callables, the two
      [PythonOperator] tasks and the [>>] edge.

    The orchestrator that runs the declared workflow (executor, retry
    engine, scheduler) is not part of the repository; [Orchestrator] holds
    a model of the parts the properties below depend on. *)

From Stdlib Require Import Ascii String ZArith Lia.
From stdpp Require Import base option list gmap strings sorting.

Local Open Scope string_scope.
Local Open Scope Z_scope.

(** ** Exceptions, results and the state monad with exceptions *)

(** The Python exceptions the development distinguishes. *)
Inductive exn : Type :=
| ImportError (name : string)
| DuplicateTaskIdFound (tid : string)
| AirflowException (msg : string)
| ExternalError (msg : string).

Inductive result (A : Type) : Type :=
| Ok (a : A)
| Raise (e : exn).

Arguments Ok {A} a.
Arguments Raise {A} e.

Definition is_ok {A} (r : result A) : bool :=
  match r with Ok _ => true | Raise _ => false end.

(** A computation over a state [S]: it returns a value or raises, and in
    both cases leaves a state behind (Python does not undo the effects of
    a statement that raised). *)
Definition M (S A : Type) : Type := S -> result A * S.

Definition ret {S A} (a : A) : M S A := fun s => (Ok a, s).

Definition raise {S A} (e : exn) : M S A := fun s => (Raise e, s).

Definition bind {S A B} (c : M S A) (k : A -> M S B) : M S B :=
  fun s =>
    match c s with
    | (Ok a, s') => k a s'
    | (Raise e, s') => (Raise e, s')
    end.

Definition get {S} : M S S := fun s => (Ok s, s).

Definition modify {S} (f : S -> S) : M S unit := fun s => (Ok tt, f s).

(** [try: c finally: f]: [f] runs whether [c] returned or raised. *)
Definition finally {S A} (c : M S A) (f : M S unit) : M S A :=
  fun s =>
    let '(r, s') := c s in
    match f s' with
    | (Ok _, s'') => (r, s'')
    | (Raise e, s'') => (Raise e, s'')
    end.

Declare Scope py_scope.
Delimit Scope py_scope with py.
Notation "x <- c ;; k" := (bind c (fun x => k))
  (at level 100, c at next level, right associativity) : py_scope.
Notation "c ;;; k" := (bind c (fun _ => k))
  (at level 100, right associativity) : py_scope.
Local Open Scope py_scope.

(** Statements run one after the other. *)
Fixpoint seq_all {S} (cs : list (M S unit)) : M S unit :=
  match cs with
  | [] => ret tt
  | c :: cs' => c ;;; seq_all cs'
  end.

(** ** The file as it stands *)

Module Source.

(** The double quote, for the lines that hold one. *)
Definition dq : string := String "034"%char EmptyString.

(** The 54 lines of [training_pipeline.py], in order, without their line
    terminators. *)
Definition source_lines : list string :=
  [ "# from asyncio import tasks"
  ; "# import json"
  ; "# from textwrap import dedent"
  ; "# import pendulum"
  ; "# import os"
  ; "# from airflow import DAG"
  ; "# from airflow.operators.python import PythonOperator"
  ; "# from dotenv import load_dotenv"
  ; "# load_dotenv()"
  ; EmptyString
  ; "# with DAG("
  ; "#     'network_training_pipelinr',"
  ; "#     default_args={'retries': 2},"
  ; "#     description='Network security pipeline for training and syncing to S3',"
  ; "#     schedule_interval=" +:+ dq +:+ "@weekly" +:+ dq +:+ ","
  ; "#     start_date=pendulum.datetime(2024,12,24, tz=" +:+ dq +:+ "UTC" +:+ dq +:+ "),"
  ; "#     catchup=False,"
  ; "#     tags=['mlops'],"
  ; "# ) as dag:"
  ; EmptyString
  ; "    "
  ; "#     def training(**kwargs):"
  ; "        "
  ; "#         from networksecurity.pipeline.training_pipeline import TrainingPipeline"
  ; "#         training_obj=TrainingPipeline()"
  ; "#         training_obj.run_pipeline()"
  ; "        "
  ; "    "
  ; "#     def sync_artifact_to_s3_bucket(**kwargs):"
  ; "#         bucket_name = " +:+ dq +:+ "networksecurity3" +:+ dq
  ; "#         os.system(f" +:+ dq +:+ "aws s3 sync /app/Artifacts s3://{bucket_name}/artifact" +:+ dq +:+ ")"
  ; "#         os.system(f" +:+ dq +:+ "aws s3 sync /app/final_model s3://{bucket_name}/final_model" +:+ dq +:+ ")"
  ; EmptyString
  ; "#     training_pipeline  = PythonOperator("
  ; "#             task_id=" +:+ dq +:+ "train_pipeline" +:+ dq +:+ ","
  ; "#             python_callable=training"
  ; EmptyString
  ; "#     )"
  ; EmptyString
  ; "#     sync_data_to_s3 = PythonOperator("
  ; "#             task_id=" +:+ dq +:+ "sync_data_to_s3" +:+ dq +:+ ","
  ; "#             python_callable=sync_artifact_to_s3_bucket"
  ; EmptyString
  ; "#     )"
  ; EmptyString
  ; "#     training_pipeline >> sync_data_to_s3"
  ; EmptyString
  ; EmptyString
  ; EmptyString
  ; EmptyString
  ; EmptyString
  ; EmptyString
  ; EmptyString
  ; EmptyString
  ].

(** Space, tab and form feed: the characters Python skips at the start
    of a line. *)
Definition is_space (c : ascii) : bool :=
  (Ascii.eqb c " " || Ascii.eqb c "009" || Ascii.eqb c "012")%bool.

(** A line that holds only white space. *)
Fixpoint is_blank (l : string) : bool :=
  match l with
  | EmptyString => true
  | String c r => (is_space c && is_blank r)%bool
  end.

(** A line whose first character after the white space is [#]. *)
Fixpoint is_comment (l : string) : bool :=
  match l with
  | EmptyString => false
  | String c r => if is_space c then is_comment r else Ascii.eqb c "#"
  end.

(** Python's rule: a line that contains only spaces, tabs, form feeds and
    possibly a comment is ignored; no token is made from it. *)
Definition is_ignored (l : string) : bool := (is_blank l || is_comment l)%bool.

(** The lines that reach the interpreter. *)
Definition code_lines (ls : list string) : list string :=
  filter (fun l => is_ignored l = false) ls.

(** Loading a module runs the lines that hold code, in order.  What a
    line of code does ([exec_line]) is left open: the result holds for
    every interpretation of it.  Statements that span several lines are
    not grouped; the file has no line of code to group. *)
Definition load_lines {S} (exec_line : string -> M S unit) (ls : list string) : M S unit :=
  seq_all (map exec_line (code_lines ls)).

Definition load_file {S} (exec_line : string -> M S unit) : M S unit :=
  load_lines exec_line source_lines.

(** Taking the comment marker off a line: the text that follows ["# "]. *)
Definition uncomment (l : string) : string :=
  match l with
  | String "#" (String " " r) => r
  | _ => l
  end.

End Source.

(** ** The world the descriptor runs in *)

(** The state of the Python process: the modules imported so far, the
    environment files read by [load_dotenv], the commands handed to
    [os.system], and how often the constructor and the run entry point of
    the training pipeline have been called. *)
Record Process : Type := {
  sys_modules : list string;
  env_files : list string;
  shell_log : list string;
  pipelines_built : nat;
  pipeline_runs : nat;
}.

Definition fresh_process : Process :=
  {| sys_modules := []; env_files := []; shell_log := [];
     pipelines_built := 0; pipeline_runs := 0 |}.

(** Modelled from the spec: the class [TrainingPipeline] of the package
    [networksecurity], which is code of the repository that is not under
    src/.  It is "an external training-pipeline object exposing a single
    zero-argument run operation whose internal contract (inputs, outputs,
    failure modes) is entirely opaque to this descriptor", with side
    effects that are "arbitrary".  So [construct_effect n p] is whatever
    the [n]-th construction does from process state [p], and
    [run_effect obj n p] whatever the [n]-th run does, on object [obj],
    from [p]: each returns ([None]) or raises ([Some msg]) and leaves any
    process state behind. *)
Record Pipeline : Type := {
  construct_effect : nat -> Process -> option string * Process;
  run_effect : nat -> nat -> Process -> option string * Process;
}.

(** What lies outside the descriptor and is only consulted by it: which
    modules can be imported; whether [load_dotenv] finds a local [.env]
    file; the exit status the shell gives to a command (it may depend on
    the commands issued before); and the external training pipeline. *)
Record Env : Type := {
  installed : list string;
  dotenv_present : bool;
  exit_status : list string -> string -> Z;
  pipeline : Pipeline;
}.

(** [pendulum.datetime(year, month, day, tz=...)]: the time of day
    defaults to midnight. *)
Record DateTime : Type := {
  year : Z; month : Z; day : Z;
  hour : Z; minute : Z; second : Z;
  tz : string;
}.

Definition pendulum_datetime (y m d : Z) (zone : string) : DateTime :=
  {| year := y; month := m; day := d; hour := 0; minute := 0; second := 0;
     tz := zone |}.

(** A task of a workflow: what [PythonOperator] builds.  The relatives are
    the sets of task ids that [>>] fills in. *)
Record Task : Type := {
  task_id : string;
  python_callable : M Process unit;
  retries : Z;
  upstream_task_ids : gset string;
  downstream_task_ids : gset string;
}.

(** A workflow: what [DAG(...)] builds.  [task_dict] keeps the tasks in the
    order in which they were added. *)
Record DAG : Type := {
  dag_id : string;
  default_args : gmap string Z;
  description : string;
  schedule_interval : string;
  start_date : DateTime;
  catchup : bool;
  tags : list string;
  task_dict : list Task;
}.

Definition task_ids (d : DAG) : list string := map task_id (task_dict d).

Definition get_task (d : DAG) (tid : string) : option Task :=
  find (fun t => String.eqb (task_id t) tid) (task_dict d).

(** The precedence edges of a workflow, read off the downstream sets. *)
Definition edges (d : DAG) : list (string * string) :=
  flat_map (fun t => map (fun v => (task_id t, v)) (elements (downstream_task_ids t)))
           (task_dict d).

(** A reference to an operator object: the workflow it is attached to, if
    any, and its task id. *)
Record TaskRef : Type := {
  ref_dag : option string;
  ref_task : string;
}.

(** What a module-level name can be bound to. *)
Inductive PyObj : Type :=
| PyModule (name : string)
| PyMember (module name : string)
| PyFunction (name : string)
| PyDag (id : string)
| PyTask (ref : TaskRef).

(** The operators made outside every [with] block: those that belong to
    no workflow yet, by task id, and for those that a workflow took in
    later, the id of that workflow. *)
Record Loose : Type := {
  orphans : gmap string Task;
  adopted : gmap string string;
}.

(** The state while a descriptor module is being evaluated: the process,
    the names bound at module level, the workflow objects created (they
    are shared and updated in place, so they live in a store keyed by
    their id), the stack of workflows entered with [with], and the
    operators made outside every [with]. *)
Record Loader : Type := {
  proc : Process;
  namespace : gmap string PyObj;
  dag_store : gmap string DAG;
  dag_context : list string;
  loose : Loose;
}.

Definition fresh_loader (p : Process) : Loader :=
  {| proc := p; namespace := ∅; dag_store := ∅; dag_context := [];
     loose := {| orphans := ∅; adopted := ∅ |} |}.

Definition with_proc (f : Process -> Process) (l : Loader) : Loader :=
  {| proc := f (proc l); namespace := namespace l;
     dag_store := dag_store l; dag_context := dag_context l;
     loose := loose l |}.

Definition with_namespace (f : gmap string PyObj -> gmap string PyObj) (l : Loader) : Loader :=
  {| proc := proc l; namespace := f (namespace l);
     dag_store := dag_store l; dag_context := dag_context l;
     loose := loose l |}.

Definition with_dag_store (f : gmap string DAG -> gmap string DAG) (l : Loader) : Loader :=
  {| proc := proc l; namespace := namespace l;
     dag_store := f (dag_store l); dag_context := dag_context l;
     loose := loose l |}.

Definition with_dag_context (f : list string -> list string) (l : Loader) : Loader :=
  {| proc := proc l; namespace := namespace l;
     dag_store := dag_store l; dag_context := f (dag_context l);
     loose := loose l |}.

Definition with_loose (f : Loose -> Loose) (l : Loader) : Loader :=
  {| proc := proc l; namespace := namespace l;
     dag_store := dag_store l; dag_context := dag_context l;
     loose := f (loose l) |}.

(** A computation of the process, run while the module loads. *)
Definition lift_proc {A} (c : M Process A) : M Loader A :=
  fun l => let '(r, p) := c (proc l) in (r, with_proc (fun _ => p) l).

(** The workflows a loaded module leaves at module level: the values of
    its names that are workflow objects. *)
Definition found_dags (l : Loader) : list DAG :=
  omap (fun o => match o with
                 | PyDag id => dag_store l !! id
                 | _ => None
                 end)
       ((map_to_list (namespace l)).*2).

(** All the tasks of the workflows found. *)
Definition registered_task_ids (l : Loader) : list string :=
  flat_map task_ids (found_dags l).

(** ** The declared workflow

    The text of lines 1-46 with the comment markers taken off, statement
    by statement.  The source lines are quoted before each definition. *)

Module Descriptor.

(** A module entered in [sys.modules], unless it is there already. *)
Definition note_module (name : string) (p : Process) : Process :=
  {| sys_modules := if bool_decide (name ∈ sys_modules p)
                    then sys_modules p else sys_modules p ++ [name];
     env_files := env_files p; shell_log := shell_log p;
     pipelines_built := pipelines_built p;
     pipeline_runs := pipeline_runs p |}.

Section WithEnv.

Variable env : Env.

(** *** The library operations the descriptor calls *)

(** [import name]: the module is looked up among the installed ones; a
    module that is missing raises, one that is found is entered in
    [sys.modules] (once).  A dotted name is taken whole: [installed] says
    of the full name whether the import succeeds, the parent packages are
    not entered one by one, and a failed import is reported under the
    name that was asked for. *)
Definition import_module (name : string) : M Process unit :=
  fun p =>
    if bool_decide (name ∈ installed env) then (Ok tt, note_module name p)
    else (Raise (ImportError name), p).

Definition bind_name (name : string) (o : PyObj) : M Loader unit :=
  modify (with_namespace (insert name o)).

(** [import json] *)
Definition import_ (name : string) : M Loader unit :=
  lift_proc (import_module name) ;;; bind_name name (PyModule name).

(** [from textwrap import dedent] *)
Definition from_import (module name : string) : M Loader unit :=
  lift_proc (import_module module) ;;; bind_name name (PyMember module name).

(** [load_dotenv()] without arguments looks for a local file [.env]: when
    there is one it is read and the result is [True]; when there is none
    nothing is read and the result is [False]. *)
Definition load_dotenv : M Process bool :=
  fun p =>
    if dotenv_present env then
      (Ok true,
       {| sys_modules := sys_modules p; env_files := env_files p ++ [".env"];
          shell_log := shell_log p; pipelines_built := pipelines_built p;
          pipeline_runs := pipeline_runs p |})
    else (Ok false, p).

(** [os.system(cmd)] hands the command to the shell and returns its exit
    status. *)
Definition os_system (cmd : string) : M Process Z :=
  fun p =>
    (Ok (exit_status env (shell_log p) cmd),
     {| sys_modules := sys_modules p; env_files := env_files p;
        shell_log := shell_log p ++ [cmd];
        pipelines_built := pipelines_built p;
        pipeline_runs := pipeline_runs p |}).

(** Modelled from the spec: [TrainingPipeline()], the constructor of the
    external class (code of the repository that is not under src/; "its
    internal contract is entirely opaque", its side effects "arbitrary").
    The call does whatever [construct_effect] says and is counted; the
    object it returns is named by its construction number. *)
Definition TrainingPipeline : M Process nat :=
  fun p =>
    let n := pipelines_built p in
    let '(o, q) := construct_effect (pipeline env) n p in
    let q' := {| sys_modules := sys_modules q; env_files := env_files q;
                 shell_log := shell_log q;
                 pipelines_built := S n;
                 pipeline_runs := pipeline_runs p |} in
    match o with
    | None => (Ok n, q')
    | Some msg => (Raise (ExternalError msg), q')
    end.

(** Modelled from the spec: [obj.run_pipeline()], the "single
    zero-argument run operation" of the external class (code of the
    repository that is not under src/).  The call does whatever
    [run_effect] says for the object [obj] and is counted. *)
Definition run_pipeline (obj : nat) : M Process unit :=
  fun p =>
    let n := pipeline_runs p in
    let '(o, q) := run_effect (pipeline env) obj n p in
    let q' := {| sys_modules := sys_modules q; env_files := env_files q;
                 shell_log := shell_log q;
                 pipelines_built := pipelines_built p;
                 pipeline_runs := S n |} in
    match o with
    | None => (Ok tt, q')
    | Some msg => (Raise (ExternalError msg), q')
    end.

(** [with d as name: body]: the workflow object is made and stored,
    entered, bound to [name], and left again when the body ends, also
    when the body raises. *)
Definition with_DAG {A} (d : DAG) (name : string) (body : M Loader A) : M Loader A :=
  modify (with_dag_store (insert (dag_id d) d)) ;;;
  modify (with_dag_context (cons (dag_id d))) ;;;
  finally (bind_name name (PyDag (dag_id d)) ;;; body)
          (modify (with_dag_context (@tail string))).

Definition add_task (t : Task) (d : DAG) : DAG :=
  {| dag_id := dag_id d; default_args := default_args d;
     description := description d; schedule_interval := schedule_interval d;
     start_date := start_date d; catchup := catchup d; tags := tags d;
     task_dict := task_dict d ++ [t] |}.

(** [PythonOperator(task_id=..., python_callable=...)]: the operator
    joins the workflow entered last, takes from its [default_args] the
    arguments it was not given ([retries], 0 when absent), and a task id
    used twice raises.  Outside every [with] the operator has no
    workflow yet and no [default_args] to take from; it is kept among the
    loose operators. *)
Definition PythonOperator (tid : string) (callable : M Process unit) : M Loader TaskRef :=
  l <- get ;;
  match dag_context l with
  | [] =>
      modify (with_loose (fun o =>
        {| orphans :=
             <[tid := {| task_id := tid; python_callable := callable;
                         retries := 0;
                         upstream_task_ids := ∅; downstream_task_ids := ∅ |}]>
               (orphans o);
           adopted := delete tid (adopted o) |})) ;;;
      ret {| ref_dag := None; ref_task := tid |}
  | id :: _ =>
      match dag_store l !! id with
      | None => raise (AirflowException "unknown DAG")
      | Some d =>
          if bool_decide (tid ∈ task_ids d) then raise (DuplicateTaskIdFound tid)
          else
            modify (with_dag_store (insert id (add_task
              {| task_id := tid; python_callable := callable;
                 retries := default 0 (default_args d !! "retries");
                 upstream_task_ids := ∅; downstream_task_ids := ∅ |} d))) ;;;
            ret {| ref_dag := Some id; ref_task := tid |}
      end
  end.

(** The edge [u -> v] entered in both tasks. *)
Definition link (u v : string) (d : DAG) : DAG :=
  {| dag_id := dag_id d; default_args := default_args d;
     description := description d; schedule_interval := schedule_interval d;
     start_date := start_date d; catchup := catchup d; tags := tags d;
     task_dict :=
       map (fun t =>
              let t1 :=
                if String.eqb (task_id t) u then
                  {| task_id := task_id t; python_callable := python_callable t;
                     retries := retries t;
                     upstream_task_ids := upstream_task_ids t;
                     downstream_task_ids := {[ v ]} ∪ downstream_task_ids t |}
                else t in
              if String.eqb (task_id t1) v then
                {| task_id := task_id t1; python_callable := python_callable t1;
                   retries := retries t1;
                   upstream_task_ids := {[ u ]} ∪ upstream_task_ids t1;
                   downstream_task_ids := downstream_task_ids t1 |}
              else t1)
           (task_dict d) |}.

(** The workflow an operator belongs to now: the one it was made in, or
    the one that took it in later. *)
Definition current_dag (r : TaskRef) (l : Loader) : option string :=
  match ref_dag r with
  | Some d => Some d
  | None => adopted (loose l) !! ref_task r
  end.

(** A loose operator is taken into a workflow: it is added to the tasks of
    the workflow as it is (a task id that the workflow has already
    raises) and is loose no more. *)
Definition adopt (dag tid : string) : M Loader unit :=
  l <- get ;;
  match orphans (loose l) !! tid, dag_store l !! dag with
  | Some t, Some d =>
      if bool_decide (tid ∈ task_ids d) then raise (DuplicateTaskIdFound tid)
      else
        modify (with_dag_store (insert dag (add_task t d))) ;;;
        modify (with_loose (fun o =>
          {| orphans := delete tid (orphans o);
             adopted := <[tid := dag]> (adopted o) |}))
  | _, _ => raise (AirflowException "unknown operator or DAG")
  end.

(** [a >> b]: [b] becomes downstream of [a].  Two operators of one
    workflow are linked; two operators of different workflows raise; when
    only one of them has a workflow the other is taken into it first; and
    when neither has one the expression raises.  The value of the
    expression is [b]. *)
Definition rshift (a b : TaskRef) : M Loader TaskRef :=
  l <- get ;;
  match current_dag a l, current_dag b l with
  | Some da, Some db =>
      if String.eqb da db then
        modify (with_dag_store (alter (link (ref_task a) (ref_task b)) da)) ;;;
        ret b
      else raise (AirflowException "tasks in more than one DAG")
  | Some da, None =>
      adopt da (ref_task b) ;;;
      modify (with_dag_store (alter (link (ref_task a) (ref_task b)) da)) ;;;
      ret b
  | None, Some db =>
      adopt db (ref_task a) ;;;
      modify (with_dag_store (alter (link (ref_task a) (ref_task b)) db)) ;;;
      ret b
  | None, None => raise (AirflowException "tasks that have no DAG yet")
  end.

(** *** The two callables *)

(** [[
    def training( **kwargs ):
        from networksecurity.pipeline.training_pipeline import TrainingPipeline
        training_obj=TrainingPipeline()
        training_obj.run_pipeline()
    ]] *)
Definition training : M Process unit :=
  import_module "networksecurity.pipeline.training_pipeline" ;;;
  training_obj <- TrainingPipeline ;;
  run_pipeline training_obj.

(** [[
    def sync_artifact_to_s3_bucket( **kwargs ):
        bucket_name = "networksecurity3"
        os.system(f"aws s3 sync /app/Artifacts s3://{bucket_name}/artifact")
        os.system(f"aws s3 sync /app/final_model s3://{bucket_name}/final_model")
    ]]
    The two statuses are dropped and the function ends without a
    [return]. *)
Definition sync_artifact_to_s3_bucket : M Process unit :=
  let bucket_name := "networksecurity3" in
  _ <- os_system ("aws s3 sync /app/Artifacts s3://" +:+ bucket_name +:+ "/artifact") ;;
  _ <- os_system ("aws s3 sync /app/final_model s3://" +:+ bucket_name +:+ "/final_model") ;;
  ret tt.

(** *** The module body *)

(** The arguments of [DAG(...)], lines 11-19. *)
Definition dag_args : DAG :=
  {| dag_id := "network_training_pipelinr";
     default_args := {[ "retries" := 2 ]};
     description := "Network security pipeline for training and syncing to S3";
     schedule_interval := "@weekly";
     start_date := pendulum_datetime 2024 12 24 "UTC";
     catchup := false;
     tags := ["mlops"];
     task_dict := [] |}.

(** The body of the [with] block, lines 22-46. *)
Definition dag_body : M Loader unit :=
  bind_name "training" (PyFunction "training") ;;;
  bind_name "sync_artifact_to_s3_bucket" (PyFunction "sync_artifact_to_s3_bucket") ;;;
  training_pipeline <- PythonOperator "train_pipeline" training ;;
  bind_name "training_pipeline" (PyTask training_pipeline) ;;;
  sync_data_to_s3 <- PythonOperator "sync_data_to_s3" sync_artifact_to_s3_bucket ;;
  bind_name "sync_data_to_s3" (PyTask sync_data_to_s3) ;;;
  _ <- rshift training_pipeline sync_data_to_s3 ;;
  ret tt.

(** The module-level imports, lines 1-8, in order. *)
Definition module_imports : M Loader unit :=
  from_import "asyncio" "tasks" ;;;
  import_ "json" ;;;
  from_import "textwrap" "dedent" ;;;
  import_ "pendulum" ;;;
  import_ "os" ;;;
  from_import "airflow" "DAG" ;;;
  from_import "airflow.operators.python" "PythonOperator" ;;;
  from_import "dotenv" "load_dotenv".

(** The whole module, lines 1-46. *)
Definition descriptor : M Loader unit :=
  module_imports ;;;
  _ <- lift_proc load_dotenv ;;
  with_DAG dag_args "dag" dag_body.

(** The modules named by the module-level imports. *)
Definition top_level_modules : list string :=
  ["asyncio"; "json"; "textwrap"; "pendulum"; "os"; "airflow";
   "airflow.operators.python"; "dotenv"].

End WithEnv.
End Descriptor.

(** Evaluating a descriptor module from a process state: a module whose
    body raises registers nothing, one that loads registers the workflows
    found at its module level. *)
Definition process_file (body : M Loader unit) (p : Process) : result (list DAG) * Process :=
  match body (fresh_loader p) with
  | (Ok _, l) => (Ok (found_dags l), proc l)
  | (Raise e, l) => (Raise e, proc l)
  end.

(** The workflow object that lines 11-46 build: the [with] block run from
    a fresh loader. *)
Definition declared_dag (env : Env) : DAG :=
  let l := snd (Descriptor.with_DAG Descriptor.dag_args "dag"
                  (Descriptor.dag_body env) (fresh_loader fresh_process)) in
  default Descriptor.dag_args (dag_store l !! dag_id Descriptor.dag_args).

(** The shape of a directory-sync command of the cloud command line: the
    local directory [dir] is reconciled into the prefix [prefix] of the
    bucket [bucket]. *)
Definition aws_s3_sync (dir bucket prefix : string) : string :=
  "aws s3 sync " +:+ dir +:+ " s3://" +:+ bucket +:+ "/" +:+ prefix.

(** ** The orchestrator *)

Module Orchestrator.

(** *** Running one task, with retries *)

Inductive TaskOutcome : Type := TaskSucceeded | TaskFailed.

(** How a task run ended and how many times the callable was invoked. *)
Record TaskRun : Type := {
  outcome : TaskOutcome;
  try_number : nat;
}.

Definition retries_used (r : TaskRun) : nat := (try_number r - 1)%nat.

(** Modelled from the spec: the orchestrator's retry wrapper, which is
    not in the repository.  "2 automatic retries per task on failure";
    a failure of the callable is "caught only by the orchestrator's
    generic retry wrapper (retry <= 2, then mark task failed)"; a
    callable that returns normally makes the task successful, whatever
    it returns.  [tries] counts the invocations made so far. *)
Fixpoint attempts (callable : M Process unit) (retries_left tries : nat)
    (p : Process) : TaskRun * Process :=
  match callable p with
  | (Ok _, p') => ({| outcome := TaskSucceeded; try_number := S tries |}, p')
  | (Raise _, p') =>
      match retries_left with
      | O => ({| outcome := TaskFailed; try_number := S tries |}, p')
      | S r => attempts callable r (S tries) p'
      end
  end.

Definition run_task (t : Task) (p : Process) : TaskRun * Process :=
  attempts (python_callable t) (Z.to_nat (retries t)) 0 p.

(** *** Executing a workflow run *)

(** The state of a task in a run; a task not yet looked at has none. *)
Inductive TIState : Type :=
| Running | Success | UpForRetry | Failed | UpstreamFailed.

Inductive Event : Type :=
| Started (tid : string)
| Succeeded (tid : string)
| Errored (tid : string).

(** A workflow run: the state and the number of tries of every task, and
    what happened so far, oldest first. *)
Record Exec : Type := {
  states : gmap string TIState;
  tries : gmap string nat;
  trace : list Event;
}.

Definition initial : Exec := {| states := ∅; tries := ∅; trace := [] |}.

Definition tries_of (x : Exec) (t : string) : nat := default 0%nat (tries x !! t).

(** Modelled from the spec: the orchestrator's executor, which is not in
    the repository.  A task "must not begin execution before" its
    upstream task "completes successfully"; the precedence edge is
    "enforced by the external orchestrator's dependency graph"; a failed
    try is retried while retries are left, then the task is marked
    failed; a task below a failed task does not run. *)
Inductive step (d : DAG) (x : Exec) : Exec -> Prop :=
| step_start t tk :
    get_task d t = Some tk ->
    states x !! t = None \/ states x !! t = Some UpForRetry ->
    (forall u, u ∈ upstream_task_ids tk -> states x !! u = Some Success) ->
    step d x {| states := <[t := Running]> (states x);
                tries := <[t := S (tries_of x t)]> (tries x);
                trace := trace x ++ [Started t] |}
| step_success t :
    states x !! t = Some Running ->
    step d x {| states := <[t := Success]> (states x);
                tries := tries x;
                trace := trace x ++ [Succeeded t] |}
| step_error t tk :
    get_task d t = Some tk ->
    states x !! t = Some Running ->
    step d x {| states :=
                  <[t := if bool_decide (Z.of_nat (tries_of x t) <= retries tk)
                         then UpForRetry else Failed]> (states x);
                tries := tries x;
                trace := trace x ++ [Errored t] |}
| step_upstream_failed t tk u :
    get_task d t = Some tk ->
    states x !! t = None ->
    u ∈ upstream_task_ids tk ->
    states x !! u = Some Failed \/ states x !! u = Some UpstreamFailed ->
    step d x {| states := <[t := UpstreamFailed]> (states x);
                tries := tries x;
                trace := trace x |}.

(** The runs of a workflow: what the executor can reach from the initial
    state. *)
Definition reachable (d : DAG) (x : Exec) : Prop := rtc (step d) initial x.

(** A task has begun when it is running or was running before. *)
Definition begun (x : Exec) (t : string) : Prop :=
  match states x !! t with
  | Some Running | Some Success | Some UpForRetry | Some Failed => True
  | _ => False
  end.

(** There is a path of precedence edges from [u] to [v]. *)
Definition path (d : DAG) : string -> string -> Prop :=
  tc (fun u v => (u, v) ∈ edges d).

Definition acyclic (d : DAG) : Prop := forall t, ~ path d t t.

(** *** Scheduling runs *)

(** Days from 1970-01-01 to the given day of the civil calendar. *)
Definition days_from_civil (y m d : Z) : Z :=
  let y' := if m <=? 2 then y - 1 else y in
  let era := y' / 400 in
  let yoe := y' - era * 400 in
  let mp := if 2 <? m then m - 3 else m + 9 in
  let doy := (153 * mp + 2) / 5 + d - 1 in
  let doe := yoe * 365 + yoe / 4 - yoe / 100 + doy in
  era * 146097 + doe - 719468.

(** Seconds from the epoch to a UTC date and time. *)
Definition timestamp (t : DateTime) : Z :=
  days_from_civil (year t) (month t) (day t) * 86400
  + hour t * 3600 + minute t * 60 + second t.

(** Modelled from the spec: the schedule of the orchestrator, which is
    not in the repository.  "Schedule: weekly cron-equivalent trigger":
    the preset [@weekly] stands for the cron expression [0 0 * * 0], every
    Sunday at 00:00 UTC.  [week] is the time from one trigger to the next,
    in seconds. *)
Definition week : Z := 7 * 86400.

(** Modelled from the spec: the first instant of the "weekly
    cron-equivalent trigger" after the epoch, Sunday 1970-01-04 00:00 UTC
    (the epoch was a Thursday). *)
Definition first_sunday : Z := 3 * 86400.

(** Modelled from the spec: the one preset the descriptor uses ("weekly
    cron-equivalent trigger"); the scheduler below is for it alone. *)
Definition is_weekly (preset : string) : bool := String.eqb preset "@weekly".

(** Modelled from the spec: the latest instant of the "weekly
    cron-equivalent trigger" at or before [t]. *)
Definition align_to_prev (t : Z) : Z :=
  first_sunday + (t - first_sunday) / week * week.

(** Modelled from the spec: the earliest instant of the "weekly
    cron-equivalent trigger" at or after [t]. *)
Definition align_to_next (t : Z) : Z := align_to_prev (t + week - 1).

(** Modelled from the spec: the latest instant of the "weekly
    cron-equivalent trigger" before [t]. *)
Definition get_prev (t : Z) : Z := align_to_prev (t - 1).

(** Modelled from the spec: the earliest instant of the "weekly
    cron-equivalent trigger" after [t]. *)
Definition get_next (t : Z) : Z := align_to_prev t + week.

(** Modelled from the spec: "no backfill of missed runs", as the
    orchestrator does it when catch-up is off, its scheduler not being in
    the repository: at time [now] the earliest start of an interval that
    may still get a run is moved up to one interval before the trigger
    last passed, so that the interval just ended can be run and the ones
    before it are skipped; it is never earlier than the first trigger at
    or after the start date [earliest]. *)
Definition skip_to_latest (now earliest : Z) : Z :=
  let last_start := get_prev now in
  let next_start := get_next last_start in
  let new_start :=
    if next_start =? now then last_start else get_prev last_start in
  Z.max new_start (align_to_next earliest).

(** Modelled from the spec: the interval of the next run ("weekly
    cron-equivalent trigger, fixed start date, no backfill of missed
    runs"), the orchestrator's scheduler not being in the repository.
    With catch-up the first interval starts at the first trigger at or
    after the start date; without it the start is skipped forward to the
    latest interval.  After a run, the next interval starts where the
    interval of that run ended, or at the skipped start if that is
    later. *)
Definition next_dagrun_info (catch_up : bool) (start : Z)
    (last : option (Z * Z)) (now : Z) : Z * Z :=
  let earliest :=
    if catch_up then align_to_next start else skip_to_latest now start in
  let a :=
    match last with
    | None => earliest
    | Some (_, e) => Z.max (align_to_prev e) earliest
    end in
  (a, get_next a).

(** Modelled from the spec: the state of the orchestrator's scheduler
    (not in the repository) for one workflow: the interval of the last
    run it generated, and the intervals of all the runs it generated,
    oldest first.  An interval of the "weekly cron-equivalent trigger" is
    the pair of its start and its end. *)
Record Sched : Type := {
  last_interval : option (Z * Z);
  runs : list (Z * Z);
}.

(** Modelled from the spec: a pass of the orchestrator's scheduler (not in
    the repository) over one workflow at time [now]: a run is generated
    for the next interval once that interval has ended. *)
Definition pass (catch_up : bool) (start : Z) (s : Sched) (now : Z) : Sched :=
  let r := next_dagrun_info catch_up start (last_interval s) now in
  if snd r <=? now then {| last_interval := Some r; runs := runs s ++ [r] |}
  else s.

(** Modelled from the spec: the orchestrator's scheduler (not in the
    repository) for workflow [d], with its "weekly cron-equivalent
    trigger, fixed start date" and catch-up as [d] says, run at the times
    [ticks]; the first of them is the first evaluation of the
    descriptor. *)
Definition schedule (d : DAG) (ticks : list Z) : option Sched :=
  if is_weekly (schedule_interval d) then
    Some (fold_left (pass (catchup d) (timestamp (start_date d))) ticks
            {| last_interval := None; runs := [] |})
  else None.

End Orchestrator.

(** ** The descriptor when it loads *)

(** The module-level imports are all installed. *)
Definition imports_installed (env : Env) : Prop :=
  Forall (fun m => m ∈ installed env) Descriptor.top_level_modules.

(** The process after the module-level statements: the eight modules
    entered in [sys.modules], then [load_dotenv()] called. *)
Definition after_load (env : Env) (p : Process) : Process :=
  snd (Descriptor.load_dotenv env
         (fold_left (fun q m => Descriptor.note_module m q)
                    Descriptor.top_level_modules p)).

(** The environment files [load_dotenv()] reads in one call. *)
Definition dotenv_read (env : Env) : list string :=
  if dotenv_present env then [".env"] else [].

(** The names the module-level imports bind. *)
Definition imports_namespace : gmap string PyObj :=
  <["load_dotenv" := PyMember "dotenv" "load_dotenv"]>
  (<["PythonOperator" := PyMember "airflow.operators.python" "PythonOperator"]>
  (<["DAG" := PyMember "airflow" "DAG"]>
  (<["os" := PyModule "os"]>
  (<["pendulum" := PyModule "pendulum"]>
  (<["dedent" := PyMember "textwrap" "dedent"]>
  (<["json" := PyModule "json"]>
  (<["tasks" := PyMember "asyncio" "tasks"]> ∅))))))).

(** ** Sample environments *)

(** Everything is installed; every shell command fails with status 1; the
    training pipeline raises on its first two runs and returns from the
    third on. *)
Definition env_ok : Env :=
  {| installed := Descriptor.top_level_modules
                  ++ ["networksecurity.pipeline.training_pipeline"];
     dotenv_present := true;
     exit_status := fun _ _ => 1;
     pipeline :=
       {| construct_effect := fun _ p => (None, p);
          run_effect := fun _ n p =>
            (if (n <? 2)%nat then Some "training failed" else None, p) |} |}.

(** The external training-pipeline module is missing, and there is no
    [.env] file. *)
Definition env_missing : Env :=
  {| installed := Descriptor.top_level_modules;
     dotenv_present := false;
     exit_status := fun _ _ => 1;
     pipeline :=
       {| construct_effect := fun _ p => (None, p);
          run_effect := fun _ _ p => (None, p) |} |}.

(** The external module that the [training] callable imports. *)
Definition training_module : string :=
  "networksecurity.pipeline.training_pipeline".

(** The two commands of the sync callable, as the shell receives them. *)
Definition sync_artifacts_cmd : string :=
  "aws s3 sync /app/Artifacts s3://networksecurity3/artifact".

Definition sync_model_cmd : string :=
  "aws s3 sync /app/final_model s3://networksecurity3/final_model".

(** The process of [env_ok] after [n] invocations of [training]. *)
Definition after_runs (n : nat) : Process :=
  {| sys_modules := [training_module]; env_files := []; shell_log := [];
     pipelines_built := n; pipeline_runs := n |}.

(** ** Invariants of the executor *)

(** What holds of every run of workflow [d]: a task that has begun has all
    its upstream tasks successful; the successful tasks are those with a
    success event; before every start event of a task lie the success
    events of its upstream tasks; and a task that has succeeded is not
    started again. *)
Definition exec_inv (d : DAG) (x : Orchestrator.Exec) : Prop :=
  (forall t tk u,
     get_task d t = Some tk -> u ∈ upstream_task_ids tk ->
     Orchestrator.begun x t ->
     Orchestrator.states x !! u = Some Orchestrator.Success)
  /\ (forall u,
        Orchestrator.states x !! u = Some Orchestrator.Success ->
        Orchestrator.Succeeded u ∈ Orchestrator.trace x)
  /\ (forall t tk u pre post,
        get_task d t = Some tk -> u ∈ upstream_task_ids tk ->
        Orchestrator.trace x = (pre ++ Orchestrator.Started t :: post)%list ->
        Orchestrator.Succeeded u ∈ pre)
  /\ (forall u,
        Orchestrator.Succeeded u ∈ Orchestrator.trace x ->
        Orchestrator.states x !! u = Some Orchestrator.Success)
  /\ (forall u pre post,
        Orchestrator.trace x = (pre ++ Orchestrator.Succeeded u :: post)%list ->
        Orchestrator.Started u ∉ post).

(** ** A sample run *)

(** The training task starts and succeeds, then the sync task starts. *)
Definition run_started : Orchestrator.Exec :=
  {| Orchestrator.states :=
       <["train_pipeline" := Orchestrator.Running]>
         (Orchestrator.states Orchestrator.initial);
     Orchestrator.tries :=
       <["train_pipeline" :=
           S (Orchestrator.tries_of Orchestrator.initial "train_pipeline")]>
         (Orchestrator.tries Orchestrator.initial);
     Orchestrator.trace :=
       Orchestrator.trace Orchestrator.initial
       ++ [Orchestrator.Started "train_pipeline"] |}.

Definition run_trained : Orchestrator.Exec :=
  {| Orchestrator.states :=
       <["train_pipeline" := Orchestrator.Success]> (Orchestrator.states run_started);
     Orchestrator.tries := Orchestrator.tries run_started;
     Orchestrator.trace :=
       Orchestrator.trace run_started ++ [Orchestrator.Succeeded "train_pipeline"] |}.

Definition run_syncing : Orchestrator.Exec :=
  {| Orchestrator.states :=
       <["sync_data_to_s3" := Orchestrator.Running]> (Orchestrator.states run_trained);
     Orchestrator.tries :=
       <["sync_data_to_s3" :=
           S (Orchestrator.tries_of run_trained "sync_data_to_s3")]>
         (Orchestrator.tries run_trained);
     Orchestrator.trace :=
       Orchestrator.trace run_trained ++ [Orchestrator.Started "sync_data_to_s3"] |}.

(** ** Repeated invocations and evaluations *)

(** [n] invocations of a callable one after the other, each from the state
    the one before left, whether it returned or raised; the results come
    in order. *)
Fixpoint invocations {A} (n : nat) (c : M Process A) (p : Process)
    : list (result A) * Process :=
  match n with
  | O => ([], p)
  | S k =>
      let '(r, p1) := c p in
      let '(rs, p2) := invocations k c p1 in
      (r :: rs, p2)
  end.

(** A computation of the loader that leaves the stack of entered workflows
    as it found it, whether it returns or raises. *)
Definition keeps_context {A} (c : M Loader A) : Prop :=
  forall l : Loader, dag_context (snd (c l)) = dag_context l.

(** Everything is installed but [pendulum], the fourth module-level
    import. *)
Definition env_no_pendulum : Env :=
  {| installed := ["asyncio"; "json"; "textwrap"; "os"; "airflow";
                   "airflow.operators.python"; "dotenv"; training_module];
     dotenv_present := true;
     exit_status := fun _ _ => 0;
     pipeline :=
       {| construct_effect := fun _ p => (None, p);
          run_effect := fun _ _ p => (None, p) |} |}.

(** ** Invariants of the scheduler *)

(** An instant of the weekly trigger. *)
Definition on_trigger (t : Z) : Prop := Orchestrator.align_to_prev t = t.

(** What holds of the scheduler without catch-up, first run at [t0] or
    later, for a start date whose first trigger is [first]: every run is
    for a whole interval between two triggers, not before [first] and not
    ending before [latest], the latest trigger at the first evaluation;
    the runs were generated in the order of their intervals, which do not
    overlap; and the last interval is the one of the newest run. *)
Definition sched_inv (latest first : Z) (s : Orchestrator.Sched) : Prop :=
  Forall (fun r => on_trigger (fst r) /\ snd r = fst r + Orchestrator.week
                   /\ first <= fst r /\ latest <= snd r)
         (Orchestrator.runs s)
  /\ StronglySorted (fun x y => snd x <= fst y) (Orchestrator.runs s)
  /\ (forall r, r ∈ Orchestrator.runs s ->
        exists l, Orchestrator.last_interval s = Some l /\ snd r <= snd l)
  /\ (forall l, Orchestrator.last_interval s = Some l -> on_trigger (snd l)).

(** Wednesday 2025-03-05 12:00 UTC, ten weeks after the start date, and the
    two Sundays before it, 2025-02-23 and 2025-03-02, 00:00 UTC. *)
Definition first_seen : Z := 1741176000.

Definition sunday_before_last : Z := 1740268800.

Definition last_sunday : Z := 1740873600.

(** * Properties *)

(** ** The monad *)

Lemma bind_ok {S A B} (c : M S A) (k : A -> M S B) s a s' :
  c s = (Ok a, s') -> bind c k s = k a s'.
Proof. intros H. unfold bind. rewrite H. reflexivity. Qed.


(** ** The file as it stands *)

Lemma source_has_54_lines : length Source.source_lines = 54%nat.
Proof. reflexivity. Qed.

Lemma source_comment_count :
  length (filter (fun l => Source.is_comment l = true) Source.source_lines) = 35%nat
  /\ length (filter (fun l => Source.is_blank l = true) Source.source_lines) = 19%nat.
Proof. split; vm_compute; reflexivity. Qed.

Lemma source_no_code : Source.code_lines Source.source_lines = [].
Proof. vm_compute. reflexivity. Qed.

(** With the comment markers taken off, the 35 comment lines are code. *)
Lemma uncommented_has_code :
  length (Source.code_lines (map Source.uncomment Source.source_lines)) = 35%nat.
Proof. vm_compute. reflexivity. Qed.

Lemma source_lines_ignored :
  Forall (fun l => Source.is_blank l = true \/ Source.is_comment l = true)
         Source.source_lines.
Proof.
  unfold Source.source_lines.
  repeat (apply Forall_cons; split; [vm_compute; tauto|]).
  apply Forall_nil_2.
Qed.

(** Whatever a line of code would do, loading the file does nothing. *)
Lemma load_file_noop {S} (exec_line : string -> M S unit) (s : S) :
  Source.load_file exec_line s = (Ok tt, s).
Proof.
  unfold Source.load_file, Source.load_lines.
  rewrite source_no_code. reflexivity.
Qed.

Lemma process_file_source (exec_line : string -> M Loader unit) (p : Process) :
  process_file (Source.load_file exec_line) p = (Ok [], p).
Proof.
  unfold process_file. rewrite load_file_noop. reflexivity.
Qed.

(** C2: evaluating the module is a no-op.  No line of the file holds code:
    each of the 54 lines is a [#] comment or is blank.  So, whatever a
    line of code would do and whatever the state, loading the file returns
    normally and leaves the state as it was: no name is bound, no workflow
    object is made or entered, no workflow and no task is registered, and
    the process (modules imported, environment files read, shell commands
    issued, pipeline runs) is untouched. *)
Theorem C2_module_is_noop :
  Forall (fun l => Source.is_blank l = true \/ Source.is_comment l = true)
         Source.source_lines
  /\ Source.code_lines Source.source_lines = []
  /\ (forall (S : Type) (exec_line : string -> M S unit) (s : S),
        Source.load_file exec_line s = (Ok tt, s))
  /\ (forall (exec_line : string -> M Loader unit) (l : Loader),
        let l' := snd (Source.load_file exec_line l) in
        namespace l' = namespace l
        /\ dag_store l' = dag_store l
        /\ dag_context l' = dag_context l
        /\ registered_task_ids l' = registered_task_ids l
        /\ env_files (proc l') = env_files (proc l)
        /\ proc l' = proc l)
  /\ (forall (exec_line : string -> M Loader unit) (p : Process),
        process_file (Source.load_file exec_line) p = (Ok [], p)).
Proof.
  split; [exact source_lines_ignored|].
  split; [exact source_no_code|].
  split; [intros; apply load_file_noop|].
  split; [|intros; apply process_file_source].
  intros exec_line l. cbn zeta. rewrite load_file_noop. cbn. tauto.
Qed.

(** ** The declared workflow *)

Lemma imports_installed_decide env m :
  imports_installed env ->
  m ∈ Descriptor.top_level_modules ->
  bool_decide (m ∈ installed env) = true.
Proof.
  intros H Hm. apply bool_decide_eq_true_2.
  unfold imports_installed in H. rewrite Forall_forall in H. auto.
Qed.

Ltac top_module :=
  unfold Descriptor.top_level_modules; repeat constructor.

Ltac resolve_imports H :=
  repeat match goal with
    | |- context [bool_decide (?m ∈ installed ?env)] =>
        rewrite (imports_installed_decide env m H) by top_module
    end.

(** The declared workflow, field by field. *)
Lemma declared_dag_fields env :
  dag_id (declared_dag env) = "network_training_pipelinr"
  /\ default_args (declared_dag env) !! "retries" = Some 2
  /\ schedule_interval (declared_dag env) = "@weekly"
  /\ start_date (declared_dag env) = pendulum_datetime 2024 12 24 "UTC"
  /\ catchup (declared_dag env) = false
  /\ tags (declared_dag env) = ["mlops"]
  /\ task_ids (declared_dag env) = ["train_pipeline"; "sync_data_to_s3"].
Proof. repeat split; vm_compute; reflexivity. Qed.

Lemma declared_dag_tasks env :
  task_dict (declared_dag env) =
    [ {| task_id := "train_pipeline";
         python_callable := Descriptor.training env;
         retries := 2;
         upstream_task_ids := ∅;
         downstream_task_ids := {[ "sync_data_to_s3" ]} |}
    ; {| task_id := "sync_data_to_s3";
         python_callable := Descriptor.sync_artifact_to_s3_bucket env;
         retries := 2;
         upstream_task_ids := {[ "train_pipeline" ]};
         downstream_task_ids := ∅ |} ].
Proof. vm_compute. reflexivity. Qed.

Lemma declared_dag_edges env :
  edges (declared_dag env) = [("train_pipeline", "sync_data_to_s3")].
Proof. vm_compute. reflexivity. Qed.

Lemma load_dotenv_fields env q :
  sys_modules (snd (Descriptor.load_dotenv env q)) = sys_modules q
  /\ env_files (snd (Descriptor.load_dotenv env q))
     = (env_files q ++ dotenv_read env)%list
  /\ shell_log (snd (Descriptor.load_dotenv env q)) = shell_log q
  /\ pipelines_built (snd (Descriptor.load_dotenv env q)) = pipelines_built q
  /\ pipeline_runs (snd (Descriptor.load_dotenv env q)) = pipeline_runs q.
Proof.
  unfold Descriptor.load_dotenv, dotenv_read.
  destruct (dotenv_present env); cbn; rewrite ?app_nil_r; repeat split.
Qed.



Lemma after_load_fields env p :
  env_files (after_load env p) = (env_files p ++ dotenv_read env)%list
  /\ shell_log (after_load env p) = shell_log p
  /\ pipelines_built (after_load env p) = pipelines_built p
  /\ pipeline_runs (after_load env p) = pipeline_runs p.
Proof.
  unfold after_load.
  destruct (load_dotenv_fields env
              (fold_left (fun q m => Descriptor.note_module m q)
                         Descriptor.top_level_modules p))
    as (_ & He & Hs & Hb & Hr).
  rewrite He, Hs, Hb, Hr. repeat split.
Qed.

Lemma module_imports_ok env p :
  imports_installed env ->
  Descriptor.module_imports env (fresh_loader p) =
    (Ok tt,
     {| proc := fold_left (fun q m => Descriptor.note_module m q)
                          Descriptor.top_level_modules p;
        namespace := imports_namespace;
        dag_store := ∅; dag_context := [];
        loose := {| orphans := ∅; adopted := ∅ |} |}).
Proof.
  intros H.
  unfold Descriptor.module_imports, Descriptor.from_import, Descriptor.import_,
    lift_proc, Descriptor.import_module, bind.
  resolve_imports H.
  reflexivity.
Qed.

(** What follows the imports, from any process state [q]. *)
Lemma with_block_ok env q :
  match bind (lift_proc (Descriptor.load_dotenv env))
             (fun _ => Descriptor.with_DAG Descriptor.dag_args "dag"
                         (Descriptor.dag_body env))
             {| proc := q; namespace := imports_namespace;
                dag_store := ∅; dag_context := [];
                loose := {| orphans := ∅; adopted := ∅ |} |} with
  | (Ok _, l) => (Ok (found_dags l), proc l)
  | (Raise e, l) => (Raise e, proc l)
  end = (Ok [declared_dag env], snd (Descriptor.load_dotenv env q)).
Proof.
  unfold bind, lift_proc, Descriptor.load_dotenv. cbn [proc].
  destruct (dotenv_present env); vm_compute; reflexivity.
Qed.

(** With its module-level imports installed, the descriptor loads, and the
    one workflow it registers is [declared_dag]. *)
Lemma descriptor_loads env p :
  imports_installed env ->
  process_file (Descriptor.descriptor env) p
  = (Ok [declared_dag env], after_load env p).
Proof.
  intros H.
  unfold process_file, Descriptor.descriptor.
  rewrite (bind_ok _ _ _ _ _ (module_imports_ok env p H)).
  apply with_block_ok.
Qed.




(** ** The two callables *)

Lemma training_missing env q :
  training_module ∉ installed env ->
  Descriptor.training env q = (Raise (ImportError training_module), q).
Proof.
  intros H. unfold Descriptor.training, bind, Descriptor.import_module.
  fold training_module.
  rewrite (bool_decide_eq_false_2 _ H). reflexivity.
Qed.

Lemma sync_runs env p :
  Descriptor.sync_artifact_to_s3_bucket env p =
    (Ok tt,
     {| sys_modules := sys_modules p; env_files := env_files p;
        shell_log := (shell_log p ++ [sync_artifacts_cmd]) ++ [sync_model_cmd];
        pipelines_built := pipelines_built p;
        pipeline_runs := pipeline_runs p |}).
Proof. reflexivity. Qed.

Lemma declared_train_task env :
  get_task (declared_dag env) "train_pipeline" =
    Some {| task_id := "train_pipeline";
            python_callable := Descriptor.training env;
            retries := 2;
            upstream_task_ids := ∅;
            downstream_task_ids := {[ "sync_data_to_s3" ]} |}.
Proof. vm_compute. reflexivity. Qed.

Lemma declared_sync_task env :
  get_task (declared_dag env) "sync_data_to_s3" =
    Some {| task_id := "sync_data_to_s3";
            python_callable := Descriptor.sync_artifact_to_s3_bucket env;
            retries := 2;
            upstream_task_ids := {[ "train_pipeline" ]};
            downstream_task_ids := ∅ |}.
Proof. vm_compute. reflexivity. Qed.

(** ** What loading registers *)

(** C1, as stated, fails on the file: evaluated from a fresh process, the
    file registers no task at all, whatever a line of code would do, so
    the registered task ids are not [train_pipeline] and
    [sync_data_to_s3]. *)
Lemma C1_file_registers_no_task :
  ~ (exists (exec_line : string -> M Loader unit) (ds : list DAG) (p' : Process),
       process_file (Source.load_file exec_line) fresh_process = (Ok ds, p')
       /\ flat_map task_ids ds ≡ₚ ["train_pipeline"; "sync_data_to_s3"]).
Proof.
  intros (exec_line & ds & p' & H & Hp).
  rewrite process_file_source in H. inversion H; subst.
  apply Permutation_length in Hp. discriminate Hp.
Qed.

(** C1, amended: as the file stands, loading it registers no workflow and
    no task; the descriptor that its commented-out text declares, once its
    module-level imports are installed, loads and registers exactly one
    workflow with exactly two tasks, whose identifiers are
    [train_pipeline] and [sync_data_to_s3], and no others. *)
Theorem C1_declared_tasks (env : Env) (p : Process) :
  imports_installed env ->
  (forall exec_line : string -> M Loader unit,
     process_file (Source.load_file exec_line) p = (Ok [], p))
  /\ exists (d : DAG) (p' : Process),
       process_file (Descriptor.descriptor env) p = (Ok [d], p')
       /\ task_ids d = ["train_pipeline"; "sync_data_to_s3"]
       /\ length (task_dict d) = 2%nat
       /\ NoDup (task_ids d).
Proof.
  intros H. split; [intros; apply process_file_source|].
  exists (declared_dag env), (after_load env p).
  split; [apply descriptor_loads; assumption|].
  split; [vm_compute; reflexivity|].
  split; [vm_compute; reflexivity|].
  change (task_ids (declared_dag env)) with ["train_pipeline"; "sync_data_to_s3"].
  apply NoDup_cons. split; [|apply NoDup_singleton].
  intros Hin. apply list_elem_of_singleton in Hin. discriminate Hin.
Qed.

Lemma env_ok_installed : imports_installed env_ok.
Proof.
  unfold imports_installed, Descriptor.top_level_modules, env_ok. cbn.
  repeat (apply Forall_cons; split; [repeat constructor|]). apply Forall_nil_2.
Qed.

Lemma env_missing_installed : imports_installed env_missing.
Proof.
  unfold imports_installed, Descriptor.top_level_modules, env_missing. cbn.
  repeat (apply Forall_cons; split; [repeat constructor|]). apply Forall_nil_2.
Qed.

Lemma env_missing_lacks_training : training_module ∉ installed env_missing.
Proof.
  apply (bool_decide_eq_false_1 (training_module ∈ installed env_missing)).
  vm_compute. reflexivity.
Qed.

Lemma C1_declared_tasks_witness :
  imports_installed env_ok
  /\ exists (d : DAG) (p' : Process),
       process_file (Descriptor.descriptor env_ok) fresh_process = (Ok [d], p')
       /\ task_ids d = ["train_pipeline"; "sync_data_to_s3"]
       /\ length (task_dict d) = 2%nat
       /\ NoDup (task_ids d).
Proof.
  split; [exact env_ok_installed|].
  exact (proj2 (C1_declared_tasks env_ok fresh_process env_ok_installed)).
Defined.

(** ** Loading the environment *)




(** ** A missing training-pipeline module *)

(** C9, as stated, fails: with the external training-pipeline module not
    installed, the file as it stands loads without any failure, and the
    declared descriptor loads too and registers its workflow with both
    tasks. *)
Lemma C9_missing_module_still_loads :
  (training_module ∉ installed env_missing)
  /\ (fst (Source.load_file (fun _ : string => raise (ImportError training_module))
             (fresh_loader fresh_process)) = Ok tt)
  /\ process_file (Descriptor.descriptor env_missing) fresh_process
     = (Ok [declared_dag env_missing], after_load env_missing fresh_process)
  /\ task_ids (declared_dag env_missing) = ["train_pipeline"; "sync_data_to_s3"].
Proof.
  split; [exact env_missing_lacks_training|].
  split; [rewrite load_file_noop; reflexivity|].
  split; [apply descriptor_loads; exact env_missing_installed|].
  vm_compute. reflexivity.
Qed.

(** ** The retry wrapper *)

Lemma attempts_success callable r n p p' :
  callable p = (Ok tt, p') ->
  Orchestrator.attempts callable r n p =
    ({| Orchestrator.outcome := Orchestrator.TaskSucceeded;
        Orchestrator.try_number := S n |}, p').
Proof. intros H. destruct r; cbn; rewrite H; reflexivity. Qed.

Lemma attempts_retry callable r n p e p' :
  callable p = (Raise e, p') ->
  Orchestrator.attempts callable (S r) n p = Orchestrator.attempts callable r (S n) p'.
Proof. intros H. cbn. rewrite H. reflexivity. Qed.

Lemma attempts_give_up callable n p e p' :
  callable p = (Raise e, p') ->
  Orchestrator.attempts callable 0 n p =
    ({| Orchestrator.outcome := Orchestrator.TaskFailed;
        Orchestrator.try_number := S n |}, p').
Proof. intros H. cbn. rewrite H. reflexivity. Qed.

(** The callable is tried at least once and at most once more than there
    are retries. *)
Lemma attempts_bounds callable r n p :
  (n < Orchestrator.try_number (fst (Orchestrator.attempts callable r n p))
   <= n + r + 1)%nat.
Proof.
  revert n p. induction r as [|r IH]; intros n p; cbn.
  - destruct (callable p) as [[[]|e] p']; cbn; lia.
  - destruct (callable p) as [[[]|e] p']; cbn; [lia|].
    specialize (IH (S n) p'). lia.
Qed.

(** A task is marked failed only when every allowed try was made. *)
Lemma attempts_failed_all_tries callable r n p :
  Orchestrator.outcome (fst (Orchestrator.attempts callable r n p))
    = Orchestrator.TaskFailed ->
  Orchestrator.try_number (fst (Orchestrator.attempts callable r n p))
    = (n + r + 1)%nat.
Proof.
  revert n p. induction r as [|r IH]; intros n p; cbn.
  - destruct (callable p) as [[[]|e] p']; cbn; [discriminate|lia].
  - destruct (callable p) as [[[]|e] p']; cbn; [discriminate|].
    intros H. rewrite (IH (S n) p' H). lia.
Qed.

(** C9, amended: a missing external training-pipeline module does not fail
    the evaluation of the declared descriptor.  The import stands inside
    the [training] callable, so with the module-level imports installed
    and that module missing the descriptor loads and registers its
    workflow, and the [ImportError] is raised only when the training task
    runs: on every try, so that the task is marked failed after its 2
    retries (3 tries). *)
Theorem C9_late_import (env : Env) (p : Process) :
  imports_installed env ->
  training_module ∉ installed env ->
  process_file (Descriptor.descriptor env) p
  = (Ok [declared_dag env], after_load env p)
  /\ task_ids (declared_dag env) = ["train_pipeline"; "sync_data_to_s3"]
  /\ (forall q : Process,
        Descriptor.training env q = (Raise (ImportError training_module), q))
  /\ exists t : Task,
       get_task (declared_dag env) "train_pipeline" = Some t
       /\ python_callable t = Descriptor.training env
       /\ forall q : Process,
            Orchestrator.run_task t q =
              ({| Orchestrator.outcome := Orchestrator.TaskFailed;
                  Orchestrator.try_number := 3 |}, q).
Proof.
  intros H Hm.
  split; [apply descriptor_loads; assumption|].
  split; [vm_compute; reflexivity|].
  split; [intros; apply training_missing; assumption|].
  eexists. split; [apply declared_train_task|].
  split; [reflexivity|].
  intros q. unfold Orchestrator.run_task. cbn [python_callable retries].
  change (Z.to_nat 2) with 2%nat.
  rewrite (attempts_retry _ _ _ _ _ _ (training_missing env q Hm)).
  rewrite (attempts_retry _ _ _ _ _ _ (training_missing env q Hm)).
  apply (attempts_give_up _ _ _ _ _ (training_missing env q Hm)).
Qed.

Lemma C9_late_import_witness :
  imports_installed env_missing
  /\ (training_module ∉ installed env_missing)
  /\ process_file (Descriptor.descriptor env_missing) fresh_process
     = (Ok [declared_dag env_missing], after_load env_missing fresh_process)
  /\ Descriptor.training env_missing fresh_process
     = (Raise (ImportError training_module), fresh_process).
Proof.
  split; [exact env_missing_installed|].
  split; [exact env_missing_lacks_training|].
  pose proof (C9_late_import env_missing fresh_process env_missing_installed
                env_missing_lacks_training) as (H1 & _ & H3 & _).
  split; [exact H1|]. exact (H3 fresh_process).
Defined.

(** ** Retries *)

(** C4: each task of the declared workflow has a retry count of 2 (taken
    from [default_args]), so when the [training] callable raises on its
    first two invocations and returns on the third, the training task is
    marked successful at its third try, that is after exactly 2 retries,
    in the state the third invocation left. *)
Theorem C4_two_retries (env : Env) (p0 p1 p2 p3 : Process) (e1 e2 : exn) :
  Descriptor.training env p0 = (Raise e1, p1) ->
  Descriptor.training env p1 = (Raise e2, p2) ->
  Descriptor.training env p2 = (Ok tt, p3) ->
  default_args (declared_dag env) !! "retries" = Some 2
  /\ Forall (fun t => retries t = 2) (task_dict (declared_dag env))
  /\ exists t : Task,
       get_task (declared_dag env) "train_pipeline" = Some t
       /\ python_callable t = Descriptor.training env
       /\ Orchestrator.run_task t p0 =
            ({| Orchestrator.outcome := Orchestrator.TaskSucceeded;
                Orchestrator.try_number := 3 |}, p3)
       /\ Orchestrator.retries_used (fst (Orchestrator.run_task t p0)) = 2%nat.
Proof.
  intros H1 H2 H3.
  split; [vm_compute; reflexivity|].
  split.
  { rewrite declared_dag_tasks. repeat constructor. }
  assert (Hrun : Orchestrator.attempts (Descriptor.training env) 2 0 p0 =
            ({| Orchestrator.outcome := Orchestrator.TaskSucceeded;
                Orchestrator.try_number := 3 |}, p3)).
  { rewrite (attempts_retry _ _ _ _ _ _ H1).
    rewrite (attempts_retry _ _ _ _ _ _ H2).
    apply (attempts_success _ _ _ _ _ H3). }
  eexists. split; [apply declared_train_task|].
  split; [reflexivity|].
  unfold Orchestrator.run_task. cbn [python_callable retries].
  change (Z.to_nat 2) with 2%nat. rewrite Hrun. split; reflexivity.
Qed.

Lemma C4_two_retries_witness :
  Descriptor.training env_ok fresh_process
    = (Raise (ExternalError "training failed"), after_runs 1)
  /\ Descriptor.training env_ok (after_runs 1)
    = (Raise (ExternalError "training failed"), after_runs 2)
  /\ Descriptor.training env_ok (after_runs 2) = (Ok tt, after_runs 3)
  /\ exists t : Task,
       get_task (declared_dag env_ok) "train_pipeline" = Some t
       /\ python_callable t = Descriptor.training env_ok
       /\ Orchestrator.run_task t fresh_process =
            ({| Orchestrator.outcome := Orchestrator.TaskSucceeded;
                Orchestrator.try_number := 3 |}, after_runs 3)
       /\ Orchestrator.retries_used (fst (Orchestrator.run_task t fresh_process))
          = 2%nat.
Proof.
  assert (H1 : Descriptor.training env_ok fresh_process
               = (Raise (ExternalError "training failed"), after_runs 1))
    by (vm_compute; reflexivity).
  assert (H2 : Descriptor.training env_ok (after_runs 1)
               = (Raise (ExternalError "training failed"), after_runs 2))
    by (vm_compute; reflexivity).
  assert (H3 : Descriptor.training env_ok (after_runs 2) = (Ok tt, after_runs 3))
    by (vm_compute; reflexivity).
  split; [exact H1|]. split; [exact H2|]. split; [exact H3|].
  exact (proj2 (proj2 (C4_two_retries env_ok _ _ _ _ _ _ H1 H2 H3))).
Defined.

(** ** The sync callable *)

(** C5: the sync callable drops the exit status of both sync commands.
    Whatever statuses the shell returns, zero or not, the callable returns
    normally, with a result and a state that do not depend on them, and
    the sync task is marked successful at its first try. *)
Theorem C5_sync_status_ignored (env : Env) (p : Process) :
  fst (Descriptor.sync_artifact_to_s3_bucket env p) = Ok tt
  /\ (forall env' : Env,
        Descriptor.sync_artifact_to_s3_bucket env' p
        = Descriptor.sync_artifact_to_s3_bucket env p)
  /\ exists t : Task,
       get_task (declared_dag env) "sync_data_to_s3" = Some t
       /\ python_callable t = Descriptor.sync_artifact_to_s3_bucket env
       /\ fst (Orchestrator.run_task t p) =
            {| Orchestrator.outcome := Orchestrator.TaskSucceeded;
               Orchestrator.try_number := 1 |}.
Proof.
  split; [reflexivity|]. split; [reflexivity|].
  eexists. split; [apply declared_sync_task|].
  split; [reflexivity|].
  unfold Orchestrator.run_task. cbn [python_callable retries].
  rewrite (attempts_success _ _ _ _ _ (sync_runs env p)). reflexivity.
Qed.

(** Both commands fail with status 1 in [env_ok], and still the sync task
    succeeds. *)
Lemma sync_fails_silently :
  fst (Descriptor.os_system env_ok sync_artifacts_cmd fresh_process) = Ok 1
  /\ fst (Descriptor.os_system env_ok sync_model_cmd
            (snd (Descriptor.os_system env_ok sync_artifacts_cmd fresh_process)))
     = Ok 1
  /\ fst (Descriptor.sync_artifact_to_s3_bucket env_ok fresh_process) = Ok tt.
Proof. repeat split. Qed.

(** C7: when invoked, the sync callable issues exactly two shell commands,
    both directory syncs to the one bucket [networksecurity3]:
    [/app/Artifacts] goes to the prefix [artifact] and [/app/final_model]
    to the prefix [final_model]. *)
Theorem C7_two_sync_commands (env : Env) (p : Process) :
  shell_log (snd (Descriptor.sync_artifact_to_s3_bucket env p)) =
    (shell_log p
     ++ [ aws_s3_sync "/app/Artifacts" "networksecurity3" "artifact"
        ; aws_s3_sync "/app/final_model" "networksecurity3" "final_model" ])%list
  /\ length (shell_log (snd (Descriptor.sync_artifact_to_s3_bucket env p)))
     = (length (shell_log p) + 2)%nat.
Proof.
  rewrite sync_runs. cbn [snd shell_log].
  rewrite <- app_assoc. split; [reflexivity|].
  rewrite length_app. reflexivity.
Qed.

(** C10: the two sync commands run in a fixed order, the artifacts
    directory first and the trained-model directory second, and the
    second runs whatever status the first returned: the callable is the
    first [os.system] call followed, from the state it leaves and for any
    status [s1] it gives, by the second. *)
Theorem C10_sync_order (env : Env) (p : Process) :
  exists (s1 s2 : Z) (p1 p2 : Process),
    Descriptor.os_system env sync_artifacts_cmd p = (Ok s1, p1)
    /\ s1 = exit_status env (shell_log p) sync_artifacts_cmd
    /\ Descriptor.os_system env sync_model_cmd p1 = (Ok s2, p2)
    /\ Descriptor.sync_artifact_to_s3_bucket env p = (Ok tt, p2)
    /\ shell_log p1 = (shell_log p ++ [sync_artifacts_cmd])%list
    /\ shell_log p2 = (shell_log p ++ [sync_artifacts_cmd; sync_model_cmd])%list
    /\ shell_log p2 !! length (shell_log p) = Some sync_artifacts_cmd
    /\ shell_log p2 !! S (length (shell_log p)) = Some sync_model_cmd.
Proof.
  do 4 eexists.
  split; [reflexivity|]. split; [reflexivity|].
  split; [reflexivity|]. split; [reflexivity|].
  split; [reflexivity|]. cbn [shell_log].
  rewrite <- app_assoc. cbn [app].
  split; [reflexivity|].
  split.
  - rewrite lookup_app_r by lia. rewrite Nat.sub_diag. reflexivity.
  - rewrite lookup_app_r by lia.
    replace (S (length (shell_log p)) - length (shell_log p))%nat with 1%nat by lia.
    reflexivity.
Qed.

(** ** The executor *)

Lemma snoc_split {A} (l pre post : list A) (e a : A) :
  (l ++ [e] = pre ++ a :: post)%list ->
  (post = [] /\ l = pre /\ e = a)
  \/ exists post', post = (post' ++ [e])%list /\ l = (pre ++ a :: post')%list.
Proof.
  destruct post as [|b post' _] using rev_ind; intros H.
  - left. apply app_inj_tail in H. tauto.
  - right. exists post'.
    change (pre ++ a :: post' ++ [b])%list with (pre ++ (a :: post') ++ [b])%list in H.
    rewrite app_assoc in H. apply app_inj_tail in H as [H1 H2].
    subst. split; reflexivity.
Qed.

Lemma begun_insert x t t' s tr tc :
  t' <> t ->
  Orchestrator.begun
    {| Orchestrator.states := <[t := s]> (Orchestrator.states x);
       Orchestrator.tries := tr; Orchestrator.trace := tc |} t'
  <-> Orchestrator.begun x t'.
Proof.
  intros Hne. unfold Orchestrator.begun. cbn.
  rewrite lookup_insert_ne by congruence. reflexivity.
Qed.

Lemma exec_inv_initial d : exec_inv d Orchestrator.initial.
Proof.
  split; [|split; [|split; [|split]]].
  - intros t tk u _ _ Hb. unfold Orchestrator.begun in Hb. cbn in Hb.
    rewrite lookup_empty in Hb. destruct Hb.
  - intros u H. cbn in H. rewrite lookup_empty in H. discriminate H.
  - intros t tk u pre post _ _ H. cbn in H. destruct pre; discriminate H.
  - intros u H. cbn in H. apply elem_of_nil in H. destruct H.
  - intros u pre post H. cbn in H. destruct pre; discriminate H.
Qed.

(** A success event that lies in the middle of a trace lies in it. *)
Lemma in_middle {A} (pre post : list A) (a : A) : a ∈ (pre ++ a :: post)%list.
Proof. apply elem_of_app. right. apply list_elem_of_here. Qed.

Lemma exec_inv_step d x y :
  exec_inv d x -> Orchestrator.step d x y -> exec_inv d y.
Proof.
  intros (I1 & I2 & I3 & I4 & I5) Hstep.
  destruct Hstep as [t tk Hget Hst Hup | t Hrun | t tk Hget Hrun | t tk u0 Hget Hnone Hin Hfail].
  - (* a task starts *)
    assert (Hns : Orchestrator.states x !! t <> Some Orchestrator.Success).
    { destruct Hst as [Hst|Hst]; rewrite Hst; discriminate. }
    split; [|split; [|split; [|split]]].
    + intros t' tk' u Hget' Hu Hb. cbn.
      assert (Hs : Orchestrator.states x !! u = Some Orchestrator.Success).
      { destruct (decide (t' = t)) as [->|Hne].
        - rewrite Hget in Hget'. inversion Hget'; subst. auto.
        - apply (I1 t' tk' u Hget' Hu). eapply begun_insert; eauto. }
      rewrite lookup_insert_ne by congruence. exact Hs.
    + intros u Hs. cbn in *.
      destruct (decide (u = t)) as [->|Hut].
      * rewrite lookup_insert_eq in Hs. discriminate Hs.
      * rewrite lookup_insert_ne in Hs by congruence.
        apply elem_of_app. left. auto.
    + intros t' tk' u pre post Hget' Hu Htr. cbn in Htr.
      apply snoc_split in Htr as [(-> & <- & Heq)|(post' & -> & Htr)].
      * inversion Heq; subst. rewrite Hget in Hget'. inversion Hget'; subst.
        apply I2. auto.
      * eapply I3; eauto.
    + intros u Hu. cbn in *. apply elem_of_app in Hu as [Hu|Hu].
      * pose proof (I4 u Hu) as Hs.
        rewrite lookup_insert_ne by congruence. exact Hs.
      * apply list_elem_of_singleton in Hu. discriminate Hu.
    + intros u pre post Htr. cbn in Htr.
      apply snoc_split in Htr as [(-> & <- & Heq)|(post' & -> & Htr)].
      * discriminate Heq.
      * intros Hu. apply elem_of_app in Hu as [Hu|Hu].
        -- exact (I5 u pre post' Htr Hu).
        -- apply list_elem_of_singleton in Hu. inversion Hu; subst.
           apply Hns. apply I4. rewrite Htr. apply in_middle.
  - (* a task succeeds *)
    split; [|split; [|split; [|split]]].
    + intros t' tk' u Hget' Hu Hb. cbn.
      destruct (decide (u = t)) as [->|Hut].
      * apply lookup_insert_eq.
      * rewrite lookup_insert_ne by congruence.
        apply (I1 t' tk' u Hget' Hu).
        destruct (decide (t' = t)) as [->|Hne].
        -- unfold Orchestrator.begun. rewrite Hrun. exact I.
        -- eapply begun_insert; eauto.
    + intros u Hs. cbn in *. apply elem_of_app.
      destruct (decide (u = t)) as [->|Hut].
      * right. apply list_elem_of_singleton. reflexivity.
      * rewrite lookup_insert_ne in Hs by congruence. left. auto.
    + intros t' tk' u pre post Hget' Hu Htr. cbn in Htr.
      apply snoc_split in Htr as [(-> & <- & Heq)|(post' & -> & Htr)].
      * discriminate Heq.
      * eapply I3; eauto.
    + intros u Hu. cbn in *.
      destruct (decide (u = t)) as [->|Hut]; [apply lookup_insert_eq|].
      rewrite lookup_insert_ne by congruence.
      apply elem_of_app in Hu as [Hu|Hu]; [auto|].
      apply list_elem_of_singleton in Hu. congruence.
    + intros u pre post Htr. cbn in Htr.
      apply snoc_split in Htr as [(-> & <- & Heq)|(post' & -> & Htr)].
      * apply not_elem_of_nil.
      * intros Hu. apply elem_of_app in Hu as [Hu|Hu].
        -- exact (I5 u pre post' Htr Hu).
        -- apply list_elem_of_singleton in Hu. discriminate Hu.
  - (* a try fails *)
    assert (Hb : forall t', Orchestrator.begun
        {| Orchestrator.states :=
             <[t := if bool_decide (Z.of_nat (Orchestrator.tries_of x t) <= retries tk)
                    then Orchestrator.UpForRetry else Orchestrator.Failed]>
               (Orchestrator.states x);
           Orchestrator.tries := Orchestrator.tries x;
           Orchestrator.trace := (Orchestrator.trace x ++ [Orchestrator.Errored t])%list |} t'
        -> Orchestrator.begun x t').
    { intros t' Hb. destruct (decide (t' = t)) as [->|Hne].
      - unfold Orchestrator.begun. rewrite Hrun. exact I.
      - eapply begun_insert; eauto. }
    assert (Hns : forall u, Orchestrator.states x !! u = Some Orchestrator.Success -> u <> t).
    { intros u Hs ->. rewrite Hrun in Hs. discriminate Hs. }
    split; [|split; [|split; [|split]]].
    + intros t' tk' u Hget' Hu Hb'. cbn.
      pose proof (I1 t' tk' u Hget' Hu (Hb t' Hb')) as Hs.
      rewrite lookup_insert_ne by (apply not_eq_sym; auto). exact Hs.
    + intros u Hs. cbn in *. apply elem_of_app. left.
      destruct (decide (u = t)) as [->|Hut].
      * rewrite lookup_insert_eq in Hs. destruct (bool_decide _); discriminate Hs.
      * rewrite lookup_insert_ne in Hs by congruence. auto.
    + intros t' tk' u pre post Hget' Hu Htr. cbn in Htr.
      apply snoc_split in Htr as [(-> & <- & Heq)|(post' & -> & Htr)].
      * discriminate Heq.
      * eapply I3; eauto.
    + intros u Hu. cbn in *. apply elem_of_app in Hu as [Hu|Hu].
      * pose proof (I4 u Hu) as Hs.
        rewrite lookup_insert_ne by (apply not_eq_sym; auto). exact Hs.
      * apply list_elem_of_singleton in Hu. discriminate Hu.
    + intros u pre post Htr. cbn in Htr.
      apply snoc_split in Htr as [(-> & <- & Heq)|(post' & -> & Htr)].
      * discriminate Heq.
      * intros Hu. apply elem_of_app in Hu as [Hu|Hu].
        -- exact (I5 u pre post' Htr Hu).
        -- apply list_elem_of_singleton in Hu. discriminate Hu.
  - (* a task below a failed task is given up *)
    assert (Hns : forall u, Orchestrator.states x !! u = Some Orchestrator.Success -> u <> t).
    { intros u Hs ->. rewrite Hnone in Hs. discriminate Hs. }
    split; [|split; [|split; [|split]]].
    + intros t' tk' u Hget' Hu Hb. cbn.
      destruct (decide (t' = t)) as [->|Hne].
      * unfold Orchestrator.begun in Hb. cbn in Hb.
        rewrite lookup_insert_eq in Hb. destruct Hb.
      * pose proof (I1 t' tk' u Hget' Hu (proj1 (begun_insert x t t' _ _ _ Hne) Hb)) as Hs.
        rewrite lookup_insert_ne by (apply not_eq_sym; auto). exact Hs.
    + intros u Hs. cbn in *.
      destruct (decide (u = t)) as [->|Hut].
      * rewrite lookup_insert_eq in Hs. discriminate Hs.
      * rewrite lookup_insert_ne in Hs by congruence. auto.
    + intros t' tk' u pre post Hget' Hu Htr. cbn in Htr. eapply I3; eauto.
    + intros u Hu. cbn in *. pose proof (I4 u Hu) as Hs.
      rewrite lookup_insert_ne by (apply not_eq_sym; auto). exact Hs.
    + intros u pre post Htr. cbn in Htr. eapply I5; eauto.
Qed.

Lemma exec_inv_reachable d x :
  Orchestrator.reachable d x -> exec_inv d x.
Proof.
  unfold Orchestrator.reachable. revert x.
  apply (rtc_ind_r (exec_inv d) Orchestrator.initial).
  - apply exec_inv_initial.
  - intros y z _ Hstep IH. eapply exec_inv_step; eauto.
Qed.

(** ** The precedence edge *)

Lemma declared_path env u v :
  Orchestrator.path (declared_dag env) u v ->
  u = "train_pipeline" /\ v = "sync_data_to_s3".
Proof.
  unfold Orchestrator.path. intros H.
  induction H as [u v H | u w v H _ IH];
    rewrite declared_dag_edges in H; apply list_elem_of_singleton in H;
    inversion H; subst.
  - split; reflexivity.
  - split; [reflexivity|]. apply IH.
Qed.

Lemma declared_acyclic env : Orchestrator.acyclic (declared_dag env).
Proof.
  intros t H. apply declared_path in H as [H1 H2].
  rewrite H1 in H2. discriminate H2.
Qed.

Lemma declared_sync_upstream env :
  exists tk : Task,
    get_task (declared_dag env) "sync_data_to_s3" = Some tk
    /\ "train_pipeline" ∈ upstream_task_ids tk.
Proof.
  eexists. split; [apply declared_sync_task|].
  cbn. apply elem_of_singleton. reflexivity.
Qed.

(** C3: the declared workflow has a single precedence edge, from
    [train_pipeline] to [sync_data_to_s3], and no cycle; and in every run
    of it, every start of the sync task comes after a success of the
    training task, the sync task has begun only if the training task is
    successful, the two tasks are never running at the same time, and no
    start of the sync task comes before a start of the training task. *)
Theorem C3_sync_after_train (env : Env) (x : Orchestrator.Exec) :
  Orchestrator.reachable (declared_dag env) x ->
  edges (declared_dag env) = [("train_pipeline", "sync_data_to_s3")]
  /\ Orchestrator.acyclic (declared_dag env)
  /\ (forall pre post,
        Orchestrator.trace x
        = (pre ++ Orchestrator.Started "sync_data_to_s3" :: post)%list ->
        Orchestrator.Succeeded "train_pipeline" ∈ pre)
  /\ (Orchestrator.begun x "sync_data_to_s3" ->
      Orchestrator.states x !! "train_pipeline" = Some Orchestrator.Success)
  /\ ~ (Orchestrator.states x !! "train_pipeline" = Some Orchestrator.Running
        /\ Orchestrator.states x !! "sync_data_to_s3" = Some Orchestrator.Running)
  /\ (forall pre post,
        Orchestrator.trace x
        = (pre ++ Orchestrator.Started "train_pipeline" :: post)%list ->
        Orchestrator.Started "sync_data_to_s3" ∉ pre).
Proof.
  intros Hr. apply exec_inv_reachable in Hr as (I1 & I2 & I3 & I4 & I5).
  destruct (declared_sync_upstream env) as (tk & Hget & Hup).
  split; [apply declared_dag_edges|].
  split; [apply declared_acyclic|].
  split; [intros pre post Htr; exact (I3 _ _ _ pre post Hget Hup Htr)|].
  split; [intros Hb; exact (I1 _ _ _ Hget Hup Hb)|].
  split.
  - intros [Ht Hs].
    assert (Hb : Orchestrator.begun x "sync_data_to_s3").
    { unfold Orchestrator.begun. rewrite Hs. exact I. }
    rewrite (I1 _ _ _ Hget Hup Hb) in Ht. discriminate Ht.
  - intros pre post Htr Hin.
    apply list_elem_of_split in Hin as (a & b & ->).
    rewrite <- app_assoc in Htr. cbn [app] in Htr.
    pose proof (I3 _ _ _ a _ Hget Hup Htr) as Hs.
    apply list_elem_of_split in Hs as (a1 & a2 & ->).
    rewrite <- app_assoc in Htr. cbn [app] in Htr.
    apply (I5 _ _ _ Htr).
    apply elem_of_app. right. apply list_elem_of_further.
    apply in_middle.
Qed.

Lemma run_syncing_reachable : Orchestrator.reachable (declared_dag env_ok) run_syncing.
Proof.
  unfold Orchestrator.reachable.
  eapply rtc_l.
  { eapply (Orchestrator.step_start _ _ "train_pipeline").
    - apply declared_train_task.
    - left. apply lookup_empty.
    - cbn. intros u Hu. apply elem_of_empty in Hu. destruct Hu. }
  eapply rtc_l.
  { apply (Orchestrator.step_success _ _ "train_pipeline").
    apply lookup_insert_eq. }
  eapply rtc_l; [|apply rtc_refl].
  eapply (Orchestrator.step_start _ _ "sync_data_to_s3").
  - apply declared_sync_task.
  - left. vm_compute. reflexivity.
  - cbn. intros u Hu. apply elem_of_singleton in Hu. subst u.
    apply lookup_insert_eq.
Qed.

Lemma C3_sync_after_train_witness :
  Orchestrator.reachable (declared_dag env_ok) run_syncing
  /\ Orchestrator.trace run_syncing
     = [ Orchestrator.Started "train_pipeline"
       ; Orchestrator.Succeeded "train_pipeline"
       ; Orchestrator.Started "sync_data_to_s3" ]
  /\ Orchestrator.Succeeded "train_pipeline"
       ∈ [ Orchestrator.Started "train_pipeline"
         ; Orchestrator.Succeeded "train_pipeline" ]
  /\ Orchestrator.states run_syncing !! "train_pipeline" = Some Orchestrator.Success.
Proof.
  split; [exact run_syncing_reachable|].
  split; [reflexivity|].
  pose proof (C3_sync_after_train env_ok run_syncing run_syncing_reachable)
    as (_ & _ & H3 & H4 & _).
  split.
  - apply (H3 _ []). reflexivity.
  - apply H4. vm_compute. exact I.
Defined.

(** ** The scheduler *)

Ltac trigger_arith :=
  unfold on_trigger, Orchestrator.align_to_next, Orchestrator.get_next,
    Orchestrator.get_prev, Orchestrator.align_to_prev, Orchestrator.week,
    Orchestrator.first_sunday in *;
  change (7 * 86400) with 604800 in *;
  change (3 * 86400) with 259200 in *;
  Z.to_euclidean_division_equations; lia.

Lemma align_to_prev_bounds t :
  Orchestrator.align_to_prev t <= t
  /\ t < Orchestrator.align_to_prev t + Orchestrator.week.
Proof. trigger_arith. Qed.

Lemma align_to_prev_on_trigger t : on_trigger (Orchestrator.align_to_prev t).
Proof. trigger_arith. Qed.

Lemma align_to_prev_mono t t' :
  t <= t' -> Orchestrator.align_to_prev t <= Orchestrator.align_to_prev t'.
Proof. trigger_arith. Qed.

Lemma on_trigger_shift t :
  on_trigger t -> on_trigger (t + Orchestrator.week) /\ on_trigger (t - Orchestrator.week).
Proof. trigger_arith. Qed.

(** A trigger at or before [t] is at or before the latest such trigger. *)
Lemma on_trigger_le_latest b t :
  on_trigger b -> b <= t -> b <= Orchestrator.align_to_prev t.
Proof.
  intros Hb Hle. rewrite <- Hb. apply align_to_prev_mono, Hle.
Qed.

Lemma align_to_next_on_trigger t :
  on_trigger (Orchestrator.align_to_next t) /\ t <= Orchestrator.align_to_next t.
Proof. trigger_arith. Qed.

Lemma get_next_on_trigger t :
  on_trigger t -> Orchestrator.get_next t = t + Orchestrator.week.
Proof.
  unfold on_trigger, Orchestrator.get_next. intros ->. reflexivity.
Qed.

(** Without catch-up the start is moved up to one interval before the
    latest trigger. *)
Lemma skip_to_latest_spec now start :
  Orchestrator.skip_to_latest now start
  = Z.max (Orchestrator.align_to_prev now - Orchestrator.week)
          (Orchestrator.align_to_next start).
Proof.
  unfold Orchestrator.skip_to_latest. f_equal.
  destruct (Z.eqb_spec
              (Orchestrator.get_next (Orchestrator.get_prev now)) now) as [E|E];
    trigger_arith.
Qed.

Lemma max_on_trigger a b : on_trigger a -> on_trigger b -> on_trigger (Z.max a b).
Proof. intros Ha Hb. destruct (Z.max_spec a b) as [[_ ->]|[_ ->]]; assumption. Qed.

(** The interval of the next run without catch-up, at a time not before
    the first evaluation. *)
Lemma next_dagrun_info_spec start last now t0 :
  t0 <= now ->
  (forall l, last = Some l -> on_trigger (snd l)) ->
  let r := Orchestrator.next_dagrun_info false start last now in
  on_trigger (fst r) /\ snd r = fst r + Orchestrator.week
  /\ Orchestrator.align_to_next start <= fst r
  /\ Orchestrator.align_to_prev t0 <= snd r
  /\ (forall l, last = Some l -> snd l <= fst r).
Proof.
  intros Hnow Hlast. cbn zeta. unfold Orchestrator.next_dagrun_info. cbn [fst snd].
  rewrite skip_to_latest_spec.
  pose proof (align_to_prev_on_trigger now) as Hn.
  pose proof (proj2 (on_trigger_shift _ Hn)) as Hn'.
  pose proof (proj1 (align_to_next_on_trigger start)) as Hs.
  pose proof (max_on_trigger _ _ Hn' Hs) as He.
  pose proof (align_to_prev_mono t0 now Hnow) as Hm.
  assert (Ha : on_trigger
                 match last with
                 | Some (_, e) =>
                     Z.max (Orchestrator.align_to_prev e)
                       (Z.max (Orchestrator.align_to_prev now - Orchestrator.week)
                              (Orchestrator.align_to_next start))
                 | None =>
                     Z.max (Orchestrator.align_to_prev now - Orchestrator.week)
                           (Orchestrator.align_to_next start)
                 end).
  { destruct last as [[a e]|]; [|exact He].
    apply max_on_trigger; [apply align_to_prev_on_trigger|exact He]. }
  split; [exact Ha|].
  split; [apply get_next_on_trigger, Ha|].
  rewrite (get_next_on_trigger _ Ha).
  destruct last as [[a e]|].
  - pose proof (Hlast _ eq_refl) as Hl. cbn [snd] in Hl. unfold on_trigger in Hl.
    split; [lia|]. split; [lia|].
    intros l Hl'. inversion Hl'; subst. cbn [snd]. lia.
  - split; [lia|]. split; [lia|]. intros l Hl'. discriminate Hl'.
Qed.

Lemma sched_inv_initial latest first :
  sched_inv latest first
    {| Orchestrator.last_interval := None; Orchestrator.runs := [] |}.
Proof.
  split; [apply Forall_nil_2|]. split; [constructor|]. cbn.
  split; [intros r Hr; apply elem_of_nil in Hr; destruct Hr|].
  intros l Hl. discriminate Hl.
Qed.

Lemma sched_inv_pass start t0 s now :
  t0 <= now ->
  sched_inv (Orchestrator.align_to_prev t0) (Orchestrator.align_to_next start) s ->
  sched_inv (Orchestrator.align_to_prev t0) (Orchestrator.align_to_next start)
            (Orchestrator.pass false start s now).
Proof.
  intros Hnow (Hall & Hsort & Hlast & Htrig).
  assert (Hw : 0 < Orchestrator.week) by reflexivity.
  unfold Orchestrator.pass.
  destruct (next_dagrun_info_spec start (Orchestrator.last_interval s) now t0
              Hnow Htrig) as (H1 & H2 & H3 & H4 & H5).
  set (r := Orchestrator.next_dagrun_info false start
              (Orchestrator.last_interval s) now) in *.
  destruct (Z.leb_spec (snd r) now) as [Hdue|Hdue];
    [|exact (conj Hall (conj Hsort (conj Hlast Htrig)))].
  cbn. split; [|split; [|split]].
  - apply Forall_app. split; [assumption|].
    apply Forall_cons. split; [|apply Forall_nil_2]. tauto.
  - apply StronglySorted_app_2; [|assumption|repeat constructor].
    intros x y Hx Hy. apply list_elem_of_singleton in Hy. subst y.
    destruct (Hlast x Hx) as (l & Hl & Hle).
    specialize (H5 l Hl). lia.
  - intros x Hx. exists r. split; [reflexivity|].
    apply elem_of_app in Hx as [Hx|Hx].
    + destruct (Hlast x Hx) as (l & Hl & Hle). specialize (H5 l Hl). lia.
    + apply list_elem_of_singleton in Hx. subst x. lia.
  - intros l Hl. inversion Hl; subst. rewrite H2.
    apply on_trigger_shift, H1.
Qed.

Lemma sched_inv_passes start t0 ticks s :
  Forall (fun t => t0 <= t) ticks ->
  sched_inv (Orchestrator.align_to_prev t0) (Orchestrator.align_to_next start) s ->
  sched_inv (Orchestrator.align_to_prev t0) (Orchestrator.align_to_next start)
            (fold_left (Orchestrator.pass false start) ticks s).
Proof.
  revert s. induction ticks as [|now ticks IH]; intros s Ht Hs; cbn; [assumption|].
  apply Forall_cons in Ht as [Hnow Ht].
  apply IH; [assumption|]. apply sched_inv_pass; assumption.
Qed.

(** Among intervals in order that do not overlap, at most one is a given
    interval of positive length. *)
Lemma sorted_at_most_one (c : Z * Z) (l : list (Z * Z)) :
  fst c < snd c ->
  StronglySorted (fun x y => snd x <= fst y) l ->
  (length (filter (fun r => r = c) l) <= 1)%nat.
Proof.
  intros Hc Hs. induction Hs as [|x l Hs IH Hx]; [cbn; lia|].
  rewrite filter_cons. destruct (decide (x = c)) as [->|Hne]; [|exact IH].
  assert (Hnil : filter (fun r => r = c) l = []).
  { destruct (filter (fun r => r = c) l) as [|y ys] eqn:E; [reflexivity|].
    assert (Hy : y ∈ filter (fun r => r = c) l)
      by (rewrite E; apply list_elem_of_here).
    apply list_elem_of_filter in Hy as [-> Hy].
    rewrite Forall_forall in Hx. specialize (Hx c Hy). lia. }
  rewrite Hnil. cbn. lia.
Qed.

(** The start date of the declared workflow, in seconds from the epoch,
    and the first trigger at or after it: Sunday 2024-12-29 00:00 UTC. *)
Lemma declared_schedule env :
  Orchestrator.timestamp (start_date (declared_dag env)) = 1734998400
  /\ Orchestrator.align_to_next
       (Orchestrator.timestamp (start_date (declared_dag env))) = 1735430400
  /\ Orchestrator.is_weekly (schedule_interval (declared_dag env)) = true.
Proof. repeat split; vm_compute; reflexivity. Qed.

(** C6, as stated, fails: first evaluated on Wednesday 2025-03-05 at
    12:00 UTC, the scheduler of the declared workflow generates a run for
    the interval from Sunday 2025-02-23 to Sunday 2025-03-02, an interval
    that had elapsed before that first evaluation. *)
Lemma C6_elapsed_interval_gets_run :
  Orchestrator.schedule (declared_dag env_ok) [first_seen]
  = Some {| Orchestrator.last_interval := Some (sunday_before_last, last_sunday);
            Orchestrator.runs := [(sunday_before_last, last_sunday)] |}
  /\ last_sunday <= first_seen
  /\ catchup (declared_dag env_ok) = false.
Proof. repeat split; vm_compute; try reflexivity. discriminate. Qed.

(** With catch-up the same first evaluation starts at the first interval
    after the start date instead, ten weeks back. *)
Lemma catch_up_starts_at_start_date :
  Orchestrator.pass true 1734998400
    {| Orchestrator.last_interval := None; Orchestrator.runs := [] |} first_seen
  = {| Orchestrator.last_interval := Some (1735430400, 1736035200);
       Orchestrator.runs := [(1735430400, 1736035200)] |}.
Proof. vm_compute. reflexivity. Qed.

(** C6, amended: the declared workflow is scheduled weekly ([@weekly],
    triggers on Sundays at 00:00 UTC) from the fixed start date 2024-12-24
    00:00 UTC with catch-up disabled, so missed runs are not backfilled:
    whenever the descriptor is first evaluated ([t0]) and whenever the
    scheduler runs afterwards ([ticks]), every run is for a whole week
    between two triggers, not before the first trigger after the start
    date, and no run is for an interval that ended before the latest
    trigger at the first evaluation.  Of the intervals that had elapsed
    at the first evaluation only the latest one can get a run, and it gets
    at most one. *)
Theorem C6_latest_interval_only (env : Env) (t0 : Z) (ticks : list Z) :
  Forall (fun t => t0 <= t) ticks ->
  schedule_interval (declared_dag env) = "@weekly"
  /\ start_date (declared_dag env) = pendulum_datetime 2024 12 24 "UTC"
  /\ Orchestrator.timestamp (start_date (declared_dag env)) = 1734998400
  /\ catchup (declared_dag env) = false
  /\ exists s : Orchestrator.Sched,
       Orchestrator.schedule (declared_dag env) (t0 :: ticks) = Some s
       /\ Forall (fun r =>
                    on_trigger (fst r)
                    /\ snd r = fst r + Orchestrator.week
                    /\ 1735430400 <= fst r
                    /\ Orchestrator.align_to_prev t0 <= snd r)
                 (Orchestrator.runs s)
       /\ Forall (fun r =>
                    snd r <= t0 ->
                    r = (Orchestrator.align_to_prev t0 - Orchestrator.week,
                         Orchestrator.align_to_prev t0))
                 (Orchestrator.runs s)
       /\ (length (filter (fun r => r = (Orchestrator.align_to_prev t0
                                         - Orchestrator.week,
                                         Orchestrator.align_to_prev t0)%Z)
                          (Orchestrator.runs s)) <= 1)%nat.
Proof.
  intros Ht.
  destruct (declared_schedule env) as (Hts & Hfirst & Hw).
  destruct (declared_dag_fields env) as (_ & _ & Hs & Hd & Hc & _).
  split; [exact Hs|]. split; [exact Hd|]. split; [exact Hts|].
  split; [exact Hc|].
  unfold Orchestrator.schedule. rewrite Hw, Hc.
  eexists. split; [reflexivity|].
  assert (Hall : Forall (fun t => t0 <= t) (t0 :: ticks)).
  { apply Forall_cons. split; [lia|assumption]. }
  pose proof (sched_inv_passes
                (Orchestrator.timestamp (start_date (declared_dag env)))
                t0 (t0 :: ticks) _ Hall (sched_inv_initial _ _))
    as (Hruns & Hsort & _ & _).
  rewrite Hfirst in Hruns.
  split; [exact Hruns|].
  split.
  - eapply Forall_impl; [exact Hruns|].
    intros [a b] (Ha & Hb & _ & Hl) Hle. cbn [fst snd] in *.
    assert (Hb' : on_trigger b).
    { rewrite Hb. apply on_trigger_shift, Ha. }
    pose proof (on_trigger_le_latest b t0 Hb' Hle) as Hle'.
    f_equal; lia.
  - apply sorted_at_most_one; [|exact Hsort].
    cbn [fst snd]. unfold Orchestrator.week. lia.
Qed.

Lemma C6_latest_interval_only_witness :
  Forall (fun t => first_seen <= t) [first_seen + Orchestrator.week]
  /\ Orchestrator.schedule (declared_dag env_ok)
       [first_seen; first_seen + Orchestrator.week]
     = Some {| Orchestrator.last_interval :=
                 Some (last_sunday, last_sunday + Orchestrator.week);
               Orchestrator.runs :=
                 [ (sunday_before_last, last_sunday)
                 ; (last_sunday, last_sunday + Orchestrator.week) ] |}
  /\ Forall (fun r => snd r <= first_seen -> r = (sunday_before_last, last_sunday))
            [ (sunday_before_last, last_sunday)
            ; (last_sunday, last_sunday + Orchestrator.week) ].
Proof.
  assert (H : Forall (fun t => first_seen <= t) [first_seen + Orchestrator.week]).
  { apply Forall_cons. split; [vm_compute; discriminate|apply Forall_nil_2]. }
  split; [exact H|].
  assert (E : Orchestrator.schedule (declared_dag env_ok)
                [first_seen; first_seen + Orchestrator.week]
              = Some {| Orchestrator.last_interval :=
                          Some (last_sunday, last_sunday + Orchestrator.week);
                        Orchestrator.runs :=
                          [ (sunday_before_last, last_sunday)
                          ; (last_sunday, last_sunday + Orchestrator.week) ] |})
    by (vm_compute; reflexivity).
  split; [exact E|].
  destruct (C6_latest_interval_only env_ok first_seen
              [first_seen + Orchestrator.week] H)
    as (_ & _ & _ & _ & s & Hs & _ & Hlate & _).
  rewrite E in Hs. inversion Hs; subst. exact Hlate.
Defined.

(** * Further properties of the declared descriptor *)

(** ** The training callable *)





(** ** The sync callable, invoked again *)

(** X3: the sync callable keeps no memory of an earlier sync.  Invoked [n]
    times it returns normally [n] times and hands the shell the same two
    commands [n] times over, artifacts before model each time, after
    whatever the log held; nothing else of the process changes. *)
Theorem sync_again (env : Env) (n : nat) (p : Process) :
  invocations n (Descriptor.sync_artifact_to_s3_bucket env) p =
    (replicate n (Ok tt),
     {| sys_modules := sys_modules p; env_files := env_files p;
        shell_log :=
          (shell_log p
           ++ concat (replicate n [sync_artifacts_cmd; sync_model_cmd]))%list;
        pipelines_built := pipelines_built p;
        pipeline_runs := pipeline_runs p |}).
Proof.
  revert p. induction n as [|n IH]; intros p.
  - cbn. rewrite app_nil_r. destruct p; reflexivity.
  - cbn [invocations]. rewrite sync_runs, IH. cbn.
    rewrite <- !app_assoc. reflexivity.
Qed.

(** ** When the descriptor loads *)


(** X5: a load that fails stops at the first module-level import that is
    missing, in the order of the source: the [ImportError] names that
    module, the modules before it have been imported, and nothing after
    it has run: no environment file is read and no workflow is
    registered. *)
Theorem load_stops_at_first_missing (env : Env) (p : Process)
    (pre : list string) (m : string) (post : list string) :
  Descriptor.top_level_modules = (pre ++ m :: post)%list ->
  Forall (fun x => x ∈ installed env) pre ->
  m ∉ installed env ->
  process_file (Descriptor.descriptor env) p
  = (Raise (ImportError m),
     fold_left (fun q x => Descriptor.note_module x q) pre p)
  /\ env_files (snd (process_file (Descriptor.descriptor env) p)) = env_files p
  /\ shell_log (snd (process_file (Descriptor.descriptor env) p)) = shell_log p.
Proof.
  intros Heq Hpre Hm. unfold Descriptor.top_level_modules in Heq.
  unfold process_file, Descriptor.descriptor, Descriptor.module_imports,
    Descriptor.from_import, Descriptor.import_, lift_proc,
    Descriptor.import_module, bind.
  do 8 (destruct pre as [|a pre];
        [ cbn in Heq; injection Heq as Hm' _; subst m;
          rewrite (bool_decide_eq_false_2 _ Hm); repeat split
        | cbn in Heq; injection Heq as Ha Heq; subst a;
          let Hin := fresh "Hin" in
          apply Forall_cons in Hpre as [Hin Hpre];
          rewrite (bool_decide_eq_true_2 _ Hin) ]).
  destruct pre; discriminate Heq.
Qed.

Lemma load_stops_at_first_missing_witness :
  Descriptor.top_level_modules
  = (["asyncio"; "json"; "textwrap"] ++ "pendulum"
       :: ["os"; "airflow"; "airflow.operators.python"; "dotenv"])%list
  /\ process_file (Descriptor.descriptor env_no_pendulum) fresh_process
     = (Raise (ImportError "pendulum"),
        {| sys_modules := ["asyncio"; "json"; "textwrap"]; env_files := [];
           shell_log := []; pipelines_built := 0; pipeline_runs := 0 |}).
Proof.
  split; [reflexivity|].
  refine (proj1 (load_stops_at_first_missing env_no_pendulum fresh_process
                   ["asyncio"; "json"; "textwrap"] "pendulum"
                   ["os"; "airflow"; "airflow.operators.python"; "dotenv"]
                   eq_refl _ _)).
  - repeat (apply Forall_cons; split; [repeat constructor|]). apply Forall_nil_2.
  - apply (bool_decide_eq_false_1 ("pendulum" ∈ installed env_no_pendulum)).
    vm_compute. reflexivity.
Defined.

(** ** The workflow context *)

Lemma keeps_bind {A B} (c : M Loader A) (k : A -> M Loader B) :
  keeps_context c -> (forall a, keeps_context (k a)) -> keeps_context (bind c k).
Proof.
  intros Hc Hk l. unfold bind. specialize (Hc l).
  destruct (c l) as [[a|e] l1]; cbn in *.
  - rewrite (Hk a l1). exact Hc.
  - exact Hc.
Qed.

Lemma keeps_ret {A} (a : A) : keeps_context (ret a).
Proof. intros l. reflexivity. Qed.

Lemma keeps_raise {A} (e : exn) : keeps_context (@raise Loader A e).
Proof. intros l. reflexivity. Qed.

Lemma keeps_lift_proc {A} (c : M Process A) : keeps_context (lift_proc c).
Proof. intros l. unfold lift_proc. destruct (c (proc l)). reflexivity. Qed.

Lemma keeps_bind_name name o : keeps_context (Descriptor.bind_name name o).
Proof. intros l. reflexivity. Qed.

Lemma keeps_store f : keeps_context (modify (with_dag_store f)).
Proof. intros l. reflexivity. Qed.

Lemma keeps_loose f : keeps_context (modify (with_loose f)).
Proof. intros l. reflexivity. Qed.

Lemma keeps_get : keeps_context (@get Loader).
Proof. intros l. reflexivity. Qed.

Lemma keeps_PythonOperator tid callable :
  keeps_context (Descriptor.PythonOperator tid callable).
Proof.
  unfold Descriptor.PythonOperator.
  apply keeps_bind; [apply keeps_get|intros l].
  destruct (dag_context l) as [|id ctx].
  - apply keeps_bind; [apply keeps_loose|intros _; apply keeps_ret].
  - destruct (dag_store l !! id); [|apply keeps_raise].
    destruct (bool_decide _); [apply keeps_raise|].
    apply keeps_bind; [apply keeps_store|intros _; apply keeps_ret].
Qed.

Lemma keeps_adopt dag tid : keeps_context (Descriptor.adopt dag tid).
Proof.
  unfold Descriptor.adopt.
  apply keeps_bind; [apply keeps_get|intros l].
  destruct (orphans (loose l) !! tid); [|apply keeps_raise].
  destruct (dag_store l !! dag); [|apply keeps_raise].
  destruct (bool_decide _); [apply keeps_raise|].
  apply keeps_bind; [apply keeps_store|intros _; apply keeps_loose].
Qed.

Lemma keeps_rshift a b : keeps_context (Descriptor.rshift a b).
Proof.
  unfold Descriptor.rshift.
  apply keeps_bind; [apply keeps_get|intros l].
  destruct (Descriptor.current_dag a l), (Descriptor.current_dag b l).
  - destruct (String.eqb _ _); [|apply keeps_raise].
    apply keeps_bind; [apply keeps_store|intros _; apply keeps_ret].
  - apply keeps_bind; [apply keeps_adopt|intros _].
    apply keeps_bind; [apply keeps_store|intros _; apply keeps_ret].
  - apply keeps_bind; [apply keeps_adopt|intros _].
    apply keeps_bind; [apply keeps_store|intros _; apply keeps_ret].
  - apply keeps_raise.
Qed.

Lemma keeps_dag_body env : keeps_context (Descriptor.dag_body env).
Proof.
  unfold Descriptor.dag_body.
  repeat first
    [ apply keeps_bind_name
    | apply keeps_PythonOperator
    | apply keeps_rshift
    | apply keeps_ret
    | apply keeps_bind; [|intros ?] ].
Qed.

Lemma finally_pops {A} (c : M Loader A) (l : Loader) :
  keeps_context c ->
  dag_context (snd (finally c (modify (with_dag_context (@tail string))) l))
  = tail (dag_context l).
Proof.
  intros H. unfold finally, modify. specialize (H l).
  destruct (c l) as [r l1]. cbn in *. rewrite H. reflexivity.
Qed.

(** A [with] block whose body leaves the context alone leaves it alone
    too: the workflow it entered is left again, also when the body
    raises. *)
Lemma keeps_with_DAG {A} d name (body : M Loader A) :
  keeps_context body -> keeps_context (Descriptor.with_DAG d name body).
Proof.
  intros Hb l. unfold Descriptor.with_DAG.
  assert (Hk : keeps_context
                 (bind (Descriptor.bind_name name (PyDag (dag_id d)))
                       (fun _ => body))).
  { apply keeps_bind; [apply keeps_bind_name|intros _; exact Hb]. }
  etransitivity; [apply (finally_pops _ _ Hk)|]. reflexivity.
Qed.

Lemma keeps_module_imports env : keeps_context (Descriptor.module_imports env).
Proof.
  unfold Descriptor.module_imports, Descriptor.from_import, Descriptor.import_.
  repeat first
    [ apply keeps_bind_name
    | apply keeps_lift_proc
    | apply keeps_bind; [|intros ?] ].
Qed.

(** X6: evaluating the descriptor never leaves a workflow entered.  From
    every loader state and in every environment, whether the evaluation
    loads or raises, the stack of entered workflows is afterwards what it
    was before: the [with] block leaves the workflow it enters. *)
Theorem descriptor_keeps_context (env : Env) (l : Loader) :
  dag_context (snd (Descriptor.descriptor env l)) = dag_context l.
Proof.
  revert l. change (keeps_context (Descriptor.descriptor env)).
  unfold Descriptor.descriptor.
  apply keeps_bind; [apply keeps_module_imports|intros _].
  apply keeps_bind; [apply keeps_lift_proc|intros _].
  apply keeps_with_DAG, keeps_dag_body.
Qed.

(** ** Evaluating the descriptor again *)

Lemma note_module_elem name p : name ∈ sys_modules (Descriptor.note_module name p).
Proof.
  unfold Descriptor.note_module. cbn.
  destruct (bool_decide_reflect (name ∈ sys_modules p)); [assumption|].
  apply elem_of_app. right. apply list_elem_of_here.
Qed.

Lemma note_module_mono name m p :
  m ∈ sys_modules p -> m ∈ sys_modules (Descriptor.note_module name p).
Proof.
  intros H. unfold Descriptor.note_module. cbn.
  destruct (bool_decide (name ∈ sys_modules p)); [assumption|].
  apply elem_of_app. left. assumption.
Qed.

(** Importing a module that is in [sys.modules] changes nothing. *)
Lemma note_module_known name p :
  name ∈ sys_modules p -> Descriptor.note_module name p = p.
Proof.
  intros H. unfold Descriptor.note_module.
  rewrite (bool_decide_eq_true_2 _ H). destruct p; reflexivity.
Qed.

Lemma fold_note_mono ms m p :
  m ∈ sys_modules p ->
  m ∈ sys_modules (fold_left (fun q x => Descriptor.note_module x q) ms p).
Proof.
  revert p. induction ms as [|x ms IH]; intros p H; cbn; [assumption|].
  apply IH, note_module_mono, H.
Qed.

Lemma fold_note_all ms p :
  Forall (fun m => m ∈ sys_modules
                         (fold_left (fun q x => Descriptor.note_module x q) ms p))
         ms.
Proof.
  revert p. induction ms as [|x ms IH]; intros p; cbn.
  - apply Forall_nil_2.
  - apply Forall_cons. split; [|apply IH].
    apply fold_note_mono, note_module_elem.
Qed.

Lemma fold_note_known ms p :
  Forall (fun m => m ∈ sys_modules p) ms ->
  fold_left (fun q x => Descriptor.note_module x q) ms p = p.
Proof.
  induction ms as [|x ms IH]; intros H; cbn; [reflexivity|].
  apply Forall_cons in H as [Hx Hms].
  rewrite (note_module_known x p Hx). apply IH, Hms.
Qed.

Lemma after_load_modules env p :
  Forall (fun m => m ∈ sys_modules (after_load env p)) Descriptor.top_level_modules.
Proof.
  unfold after_load. rewrite (proj1 (load_dotenv_fields env _)).
  exact (fold_note_all Descriptor.top_level_modules p).
Qed.

Lemma after_load_again env p :
  after_load env (after_load env p)
  = snd (Descriptor.load_dotenv env (after_load env p)).
Proof.
  unfold after_load at 1.
  rewrite (fold_note_known _ _ (after_load_modules env p)). reflexivity.
Qed.

(** X7: the descriptor can be evaluated again and again.  A second
    evaluation, from the process the first one left, loads too and
    registers the same workflow; it imports nothing new, because the
    eight modules are in [sys.modules] since the first evaluation; and it
    calls [load_dotenv()] once more, so that the file [.env], if there is
    one, has then been read twice, and nothing has been read if there is
    none. *)
Theorem descriptor_evaluated_again (env : Env) (p : Process) :
  imports_installed env ->
  exists p1 p2 : Process,
    process_file (Descriptor.descriptor env) p = (Ok [declared_dag env], p1)
    /\ process_file (Descriptor.descriptor env) p1 = (Ok [declared_dag env], p2)
    /\ Forall (fun m => m ∈ sys_modules p1) Descriptor.top_level_modules
    /\ sys_modules p2 = sys_modules p1
    /\ env_files p2
       = (env_files p ++ (if dotenv_present env then [".env"; ".env"] else []))%list
    /\ shell_log p2 = shell_log p.
Proof.
  intros H. exists (after_load env p), (after_load env (after_load env p)).
  split; [apply descriptor_loads, H|].
  split; [apply descriptor_loads, H|].
  split; [apply after_load_modules|].
  rewrite after_load_again.
  destruct (after_load_fields env p) as (He & Hs & _).
  destruct (load_dotenv_fields env (after_load env p)) as (Hm' & He' & Hs' & _).
  split; [exact Hm'|].
  split.
  - rewrite He', He, <- app_assoc. unfold dotenv_read.
    destruct (dotenv_present env); reflexivity.
  - rewrite Hs'. exact Hs.
Qed.

Lemma descriptor_evaluated_again_witness :
  imports_installed env_ok
  /\ exists p1 p2 : Process,
       process_file (Descriptor.descriptor env_ok) fresh_process
       = (Ok [declared_dag env_ok], p1)
       /\ process_file (Descriptor.descriptor env_ok) p1
          = (Ok [declared_dag env_ok], p2)
       /\ sys_modules p2 = sys_modules p1
       /\ env_files p2 = [".env"; ".env"].
Proof.
  split; [exact env_ok_installed|].
  destruct (descriptor_evaluated_again env_ok fresh_process env_ok_installed)
    as (p1 & p2 & H1 & H2 & _ & H4 & H5 & _).
  exists p1, p2. repeat split; assumption.
Defined.

(** ** The [with] block, from any state *)

(** Reading a field of a loader after an update of a field. *)
Lemma proc_with_namespace fn l : proc (with_namespace fn l) = proc l.
Proof. reflexivity. Qed.
Lemma proc_with_dag_store fs l : proc (with_dag_store fs l) = proc l.
Proof. reflexivity. Qed.
Lemma proc_with_dag_context fc l : proc (with_dag_context fc l) = proc l.
Proof. reflexivity. Qed.
Lemma namespace_with_namespace fn l :
  namespace (with_namespace fn l) = fn (namespace l).
Proof. reflexivity. Qed.
Lemma namespace_with_dag_store fs l : namespace (with_dag_store fs l) = namespace l.
Proof. reflexivity. Qed.
Lemma namespace_with_dag_context fc l :
  namespace (with_dag_context fc l) = namespace l.
Proof. reflexivity. Qed.
Lemma dag_store_with_namespace fn l : dag_store (with_namespace fn l) = dag_store l.
Proof. reflexivity. Qed.
Lemma dag_store_with_dag_store fs l :
  dag_store (with_dag_store fs l) = fs (dag_store l).
Proof. reflexivity. Qed.
Lemma dag_store_with_dag_context fc l :
  dag_store (with_dag_context fc l) = dag_store l.
Proof. reflexivity. Qed.
Lemma dag_context_with_namespace fn l :
  dag_context (with_namespace fn l) = dag_context l.
Proof. reflexivity. Qed.
Lemma dag_context_with_dag_store fs l :
  dag_context (with_dag_store fs l) = dag_context l.
Proof. reflexivity. Qed.
Lemma dag_context_with_dag_context fc l :
  dag_context (with_dag_context fc l) = fc (dag_context l).
Proof. reflexivity. Qed.

Create Rewrite HintDb loader.

#[local] Hint Rewrite proc_with_namespace proc_with_dag_store proc_with_dag_context
  namespace_with_namespace namespace_with_dag_store namespace_with_dag_context
  dag_store_with_namespace dag_store_with_dag_store dag_store_with_dag_context
  dag_context_with_namespace dag_context_with_dag_store
  dag_context_with_dag_context : loader.

Lemma PythonOperator_in_context tid callable l id ctx d :
  dag_context l = id :: ctx ->
  dag_store l !! id = Some d ->
  tid ∉ task_ids d ->
  Descriptor.PythonOperator tid callable l =
    (Ok {| ref_dag := Some id; ref_task := tid |},
     with_dag_store
       (insert id (Descriptor.add_task
          {| task_id := tid; python_callable := callable;
             retries := default 0 (default_args d !! "retries");
             upstream_task_ids := ∅; downstream_task_ids := ∅ |} d)) l).
Proof.
  intros Hc Hd Hn. unfold Descriptor.PythonOperator, bind, get.
  rewrite Hc, Hd, (bool_decide_eq_false_2 _ Hn). reflexivity.
Qed.

(** A task id used twice in one workflow raises. *)
Lemma PythonOperator_duplicate tid callable l id ctx d :
  dag_context l = id :: ctx ->
  dag_store l !! id = Some d ->
  tid ∈ task_ids d ->
  Descriptor.PythonOperator tid callable l = (Raise (DuplicateTaskIdFound tid), l).
Proof.
  intros Hc Hd Hn. unfold Descriptor.PythonOperator, bind, get.
  rewrite Hc, Hd, (bool_decide_eq_true_2 _ Hn). reflexivity.
Qed.

(** The workflow of the descriptor, built up task by task. *)
Lemma declared_dag_built env :
  declared_dag env =
    Descriptor.link "train_pipeline" "sync_data_to_s3"
      (Descriptor.add_task
         {| task_id := "sync_data_to_s3";
            python_callable := Descriptor.sync_artifact_to_s3_bucket env;
            retries := default 0 (default_args Descriptor.dag_args !! "retries");
            upstream_task_ids := ∅; downstream_task_ids := ∅ |}
         (Descriptor.add_task
            {| task_id := "train_pipeline";
               python_callable := Descriptor.training env;
               retries := default 0 (default_args Descriptor.dag_args !! "retries");
               upstream_task_ids := ∅; downstream_task_ids := ∅ |}
            Descriptor.dag_args)).
Proof. vm_compute. reflexivity. Qed.

(** What the [with] block leaves, from any loader state. *)
Lemma with_block_result (env : Env) (l : Loader) :
  exists l' : Loader,
    Descriptor.with_DAG Descriptor.dag_args "dag" (Descriptor.dag_body env) l
    = (Ok tt, l')
    /\ dag_store l'
       = <["network_training_pipelinr" := declared_dag env]> (dag_store l)
    /\ dag_context l' = dag_context l
    /\ proc l' = proc l
    /\ namespace l'
       = <["sync_data_to_s3" :=
             PyTask {| ref_dag := Some "network_training_pipelinr";
                       ref_task := "sync_data_to_s3" |}]>
         (<["training_pipeline" :=
              PyTask {| ref_dag := Some "network_training_pipelinr";
                        ref_task := "train_pipeline" |}]>
         (<["sync_artifact_to_s3_bucket" := PyFunction "sync_artifact_to_s3_bucket"]>
         (<["training" := PyFunction "training"]>
         (<["dag" := PyDag "network_training_pipelinr"]> (namespace l))))).
Proof.
  eexists.
  unfold Descriptor.with_DAG, Descriptor.dag_body, finally.
  unfold bind at 1 2. unfold modify at 1 2.
  unfold bind at 1. unfold Descriptor.bind_name at 1. unfold modify at 1.
  unfold bind at 1. unfold Descriptor.bind_name at 1. unfold modify at 1.
  unfold bind at 1. unfold Descriptor.bind_name at 1. unfold modify at 1.
  erewrite bind_ok.
  2:{ apply PythonOperator_in_context with (ctx := dag_context l).
      - reflexivity.
      - cbn. apply lookup_insert_eq.
      - cbn. apply not_elem_of_nil. }
  unfold bind at 1. unfold Descriptor.bind_name at 1. unfold modify at 1.
  erewrite bind_ok.
  2:{ apply PythonOperator_in_context with (ctx := dag_context l).
      - reflexivity.
      - cbn. apply lookup_insert_eq.
      - cbn. intros Hin. apply list_elem_of_singleton in Hin. discriminate Hin. }
  unfold bind at 1. unfold Descriptor.bind_name at 1. unfold modify at 1.
  unfold bind, Descriptor.rshift, modify, ret. cbn.
  split; [reflexivity|].
  autorewrite with loader. cbn [tail].
  split; [|repeat split].
  rewrite alter_insert_eq, !insert_insert_eq.
  rewrite declared_dag_built. reflexivity.
Qed.

(** ** The names of the module *)

Lemma lift_load_dotenv_returns env l :
  exists l1 : Loader,
    lift_proc (Descriptor.load_dotenv env) l = (Ok (dotenv_present env), l1)
    /\ namespace l1 = namespace l.
Proof.
  unfold lift_proc, Descriptor.load_dotenv.
  destruct (dotenv_present env); eexists; split; reflexivity.
Qed.

(** X9: when the descriptor loads, its module holds exactly thirteen
    names: the eight imported ones, [dag] bound to the workflow, the two
    functions, and the two task variables bound to the tasks of that
    workflow. *)
Theorem descriptor_binds_names (env : Env) (p : Process) :
  imports_installed env ->
  exists l : Loader,
    Descriptor.descriptor env (fresh_loader p) = (Ok tt, l)
    /\ dom (namespace l)
       = list_to_set (C := gset string)
           ["tasks"; "json"; "dedent"; "pendulum"; "os"; "DAG";
            "PythonOperator"; "load_dotenv"; "dag"; "training";
            "sync_artifact_to_s3_bucket"; "training_pipeline";
            "sync_data_to_s3"]
    /\ size (namespace l) = 13%nat
    /\ namespace l !! "dag" = Some (PyDag "network_training_pipelinr")
    /\ namespace l !! "training" = Some (PyFunction "training")
    /\ namespace l !! "sync_artifact_to_s3_bucket"
       = Some (PyFunction "sync_artifact_to_s3_bucket")
    /\ namespace l !! "training_pipeline"
       = Some (PyTask {| ref_dag := Some "network_training_pipelinr";
                         ref_task := "train_pipeline" |})
    /\ namespace l !! "sync_data_to_s3"
       = Some (PyTask {| ref_dag := Some "network_training_pipelinr";
                         ref_task := "sync_data_to_s3" |}).
Proof.
  intros H. unfold Descriptor.descriptor.
  rewrite (bind_ok _ _ _ _ _ (module_imports_ok env p H)).
  match goal with
  | |- context [bind (lift_proc _) _ ?l0] =>
      destruct (lift_load_dotenv_returns env l0) as (l1 & E1 & Hn1)
  end.
  rewrite (bind_ok _ _ _ _ _ E1).
  destruct (with_block_result env l1) as (l' & E & _ & _ & _ & Hn).
  exists l'. split; [exact E|].
  rewrite Hn, Hn1. cbn [namespace].
  repeat split; vm_compute; reflexivity.
Qed.

Lemma descriptor_binds_names_witness :
  imports_installed env_ok
  /\ exists l : Loader,
       Descriptor.descriptor env_ok (fresh_loader fresh_process) = (Ok tt, l)
       /\ size (namespace l) = 13%nat
       /\ namespace l !! "dag" = Some (PyDag "network_training_pipelinr").
Proof.
  split; [exact env_ok_installed|].
  destruct (descriptor_binds_names env_ok fresh_process env_ok_installed)
    as (l & E & _ & Hs & Hd & _).
  exists l. repeat split; assumption.
Defined.
